(** * Story-point poker front end: room service and room component

    A shallow embedding of
      - [src/app/core/services/room.service.ts] (the socket handlers of
        [RoomService.initializeSocket] and the outbound calls they need), and
      - [src/app/room/room.component.ts] (the subscriptions of
        [setupSubscriptions], [selectEstimate], [closeRoom], [getSegmentPath],
        [updateChartData], [generateChartData], [getEstimateLabel]).

    Conventions of the embedding.
      - A JavaScript number that is a count or a story point is an integer
        ([Z], printed by [toString] in plain decimal form, as the engine does
        below 10^21); percentages, offsets and coordinates are exact
        rationals ([Q]), the idealisation of the double-precision arithmetic
        of the source (rounding is not modelled; equalities between such
        numbers are stated with [==]).
      - [Math.PI], [Math.cos] and [Math.sin] belong to the engine, not to the
        repository: they are the fields of the class [MathLib], and every
        theorem holds for all its instances.
      - A template literal is kept as the sequence of its literal chunks and
        interpolated numbers ([Template]), so that no number printer has to be
        chosen.
      - A plain object used as a dictionary is the list of its own properties
        in creation order ([JsObject]); [Object.entries] enumerates them in the
        order of the language: array-index keys first, ascending, then the
        other keys in creation order.  A plain object inherits the members
        of [Object.prototype]: an assignment under [__proto__] of a value
        that is not an object creates no property, and that is modelled; a
        read under one of the other inherited names gives a function where
        the source expects a count, so that the count becomes a text and the
        percentage [NaN], which the numbers of this embedding do not
        represent: the statements about counts and percentages take labels
        that are not inherited ([ordinary_labels]).
      - Optional fields ([estimate?], [isAdmin?]) are [option]s; [undefined]
        and [null] are [None].
      - Methods are state transformers over the running application
        ([App.t]: service, component, local storage) that also log the calls
        they make to the outside (socket, HTTP, router, dialogs). *)

From Stdlib Require Import String Ascii List Bool ZArith NArith QArith Lia.
From Stdlib Require Import DecimalString Permutation Sorted.
Import ListNotations.

Local Open Scope string_scope.
Local Open Scope Z_scope.

(* ------------------------------------------------------------------ *)
(** ** JavaScript values used by the program *)

(** [number | string], the type of an estimate and of a card. *)
Inductive Estimate : Type :=
| ENumber (n : Z)
| EString (s : string).

Definition Estimate_eqb (a b : Estimate) : bool :=
  match a, b with
  | ENumber m, ENumber n => m =? n
  | EString s, EString t => (s =? t)%string
  | _, _ => false
  end.

(** [===] between a [number | string | null] and a [number | string]. *)
Definition strict_eq (sel : option Estimate) (point : Estimate) : bool :=
  match sel with
  | Some e => Estimate_eqb e point
  | None => false
  end.

(** [x.toString()] for an integer number or a string. *)
Definition Estimate_toString (e : Estimate) : string :=
  match e with
  | ENumber n => NilZero.string_of_int (Z.to_int n)
  | EString s => s
  end.

(** Truthiness of a value of type [number | string | undefined]. *)
Definition truthy (e : option Estimate) : bool :=
  match e with
  | None => false
  | Some (ENumber n) => negb (n =? 0)
  | Some (EString s) => negb (s =? "")%string
  end.

(** Truthiness of an optional boolean ([isAdmin?: boolean]). *)
Definition truthy_flag (b : option bool) : bool :=
  match b with
  | Some true => true
  | _ => false
  end.

(** [a || b] on strings: the first operand unless it is empty. *)
Definition or_string (a b : string) : string :=
  if (a =? "")%string then b else a.

(** [n || 0] on an optional count. *)
Definition or_zero (n : option Z) : Z :=
  match n with
  | Some k => k
  | None => 0
  end.

(** [x >= y] and [x > y] on numbers. *)
Definition Qge_bool (x y : Q) : bool := Qle_bool y x.
Definition Qgt_bool (x y : Q) : bool := negb (Qle_bool x y).

(* ------------------------------------------------------------------ *)
(** ** Plain objects used as dictionaries *)

Module JsObject.

(** Own enumerable properties, in the order in which they were created. *)
Definition t (V : Type) : Type := list (string * V).

Definition empty {V : Type} : t V := [].

(** The names of the members of [Object.prototype], which a plain object
    inherits. *)
Definition Object_prototype : list string :=
  ["constructor"; "__defineGetter__"; "__defineSetter__"; "hasOwnProperty";
   "__lookupGetter__"; "__lookupSetter__"; "isPrototypeOf";
   "propertyIsEnumerable"; "toString"; "valueOf"; "__proto__";
   "toLocaleString"].

Definition inherited (k : string) : bool :=
  existsb (fun k' => (k' =? k)%string) Object_prototype.

(** The own property of [o] under [k].  This is what [o[k]] reads when
    there is one, and also when there is none and [k] is not inherited:
    [None] is [undefined].  Under an inherited name without own property
    [o[k]] reads the member of [Object.prototype], which is a function or
    an object and no value of [V]. *)
Fixpoint get {V : Type} (o : t V) (k : string) : option V :=
  match o with
  | [] => None
  | (k', v) :: o' => if (k' =? k)%string then Some v else get o' k
  end.

(** The own property under [k] is given the value [v]: an existing
    property keeps its place, a new one is created after all the others. *)
Fixpoint define {V : Type} (o : t V) (k : string) (v : V) : t V :=
  match o with
  | [] => [(k, v)]
  | (k', v') :: o' =>
      if (k' =? k)%string then (k', v) :: o' else (k', v') :: define o' k v
  end.

(** [o[k] = v] for a value [v] that is not an object (a number, a text).
    Under [__proto__], unless the object has an own property of that name,
    the assignment goes to the setter inherited from [Object.prototype],
    which ignores such a value: no property is created.  Under any other
    name the own property is written (the other inherited members are
    writable data properties, which an assignment shadows). *)
Definition set {V : Type} (o : t V) (k : string) (v : V) : t V :=
  match get o k with
  | Some _ => define o k v
  | None => if (k =? "__proto__")%string then o else define o k v
  end.

(** An array index is the canonical decimal form of an integer between
    0 and 2^32 - 2. *)
Definition array_index (k : string) : option N :=
  match NilEmpty.uint_of_string k with
  | Some d =>
      let n := N.of_uint d in
      if ((NilZero.string_of_uint (N.to_uint n) =? k)%string
          && (n <? 4294967295)%N)%bool
      then Some n else None
  | None => None
  end.

Definition is_index (k : string) : bool :=
  match array_index k with Some _ => true | None => false end.

Definition index_of (k : string) : N :=
  match array_index k with Some n => n | None => 0%N end.

Definition index_props {V : Type} (o : t V) : t V :=
  filter (fun kv => is_index (fst kv)) o.

Definition string_props {V : Type} (o : t V) : t V :=
  filter (fun kv => negb (is_index (fst kv))) o.

(** Ascending order of the array-index properties. *)
Fixpoint insert_by_index {V : Type} (x : string * V) (l : t V) : t V :=
  match l with
  | [] => [x]
  | y :: l' =>
      if (index_of (fst x) <=? index_of (fst y))%N
      then x :: y :: l'
      else y :: insert_by_index x l'
  end.

Definition sort_by_index {V : Type} (l : t V) : t V :=
  fold_right insert_by_index [] l.

(** [Object.entries(o)]: OrdinaryOwnPropertyKeys lists the array-index
    keys in ascending numeric order, then the string keys in creation
    order. *)
Definition entries {V : Type} (o : t V) : list (string * V) :=
  (sort_by_index (index_props o) ++ string_props o)%list.

Definition keys {V : Type} (o : t V) : list string := map fst o.

Definition sum_values (o : t Z) : Z := fold_right (fun kv s => snd kv + s) 0 o.

Definition index_le {V : Type} (x y : string * V) : Prop :=
  (index_of (fst x) <= index_of (fst y))%N.

End JsObject.

(* ------------------------------------------------------------------ *)
(** ** Data model ([room.service.ts], [room.component.ts]) *)

Module User.
Record t : Type := mk {
  id : string;
  name : string;
  estimate : option Estimate;
  hasVoted : bool;
  isAdmin : option bool;
  connected : option bool
}.
End User.

Module Story.
Record t : Type := mk {
  title : string;
  description : string
}.
End Story.

Module Room.
Record t : Type := mk {
  id : string;
  name : string;
  userCount : Z;
  adminName : string;
  story : Story.t;
  votingRevealed : bool;
  estimationStarted : bool;
  createdAt : string;
  lastActivity : string
}.

(** [{ ...room, story: s }] *)
Definition with_story (r : t) (s : Story.t) : t :=
  mk (id r) (name r) (userCount r) (adminName r) s
     (votingRevealed r) (estimationStarted r) (createdAt r) (lastActivity r).
End Room.

Module VotingResults.
Record t : Type := mk {
  totalVotes : Z;
  estimates : JsObject.t Z;
  averageEstimate : option Q;
  mostCommonEstimate : option string;
  revealed : option bool
}.
End VotingResults.

(** A template literal: literal chunks and interpolated numbers. *)
Inductive Piece : Type :=
| Text (s : string)
| Num (q : Q).

Definition Template : Type := list Piece.

Module ChartSegment.
Record t : Type := mk {
  label : string;
  value : Z;
  percentage : Q;
  color : string;
  offset : Q;
  pathData : option Template
}.
End ChartSegment.

(** The engine's [Math] object, as far as the program uses it. *)
Class MathLib : Type := {
  Math_PI : Q;
  Math_cos : Q -> Q;
  Math_sin : Q -> Q
}.

(* ------------------------------------------------------------------ *)
(** ** Calls to the outside of the program *)

Inductive Effect : Type :=
| Socket_emit_submit_vote (roomId userId estimate : string)
| Http_delete (url : string)
| Router_navigate (commands : list string)
| Swal_fire (icon title : string)
| ShowConfetti
| SetTimeout_detectChanges
| Console_error (message : string).

(** The answer to an HTTP request: a response envelope
    ([ApiResponse]: [success], [error?]) or a failure. *)
Inductive HttpOutcome : Type :=
| Http_next (success : bool) (error : option string)
| Http_error.

(** The [summary] of a [votes-revealed] event (typed [any] in the source;
    [totalVotes] and [mostCommon] are the fields read). *)
Module Summary.
Record t : Type := mk {
  totalVotes : option Z;
  mostCommon : option string
}.
End Summary.

(** The events of the socket, with their payloads. *)
Inductive InboundEvent : Type :=
| Room_state (room : Room.t) (users : list User.t)
    (results : option VotingResults.t)
| User_joined (user : User.t) (room : Room.t) (users : list User.t)
| User_left (userId : string) (room : Room.t) (users : list User.t)
| User_disconnected (userId : string) (users : list User.t)
| Vote_submitted (userId : string) (users : list User.t)
    (results : option VotingResults.t)
| Votes_revealed (revealed : bool) (votes : list User.t)
    (summary : option Summary.t)
| Voting_reset (users : list User.t) (results : option VotingResults.t)
| Estimation_started (users : list User.t) (results : option VotingResults.t)
| Story_updated (story : Story.t) (room : Room.t)
| Socket_error (message : string).

(** [localStorage]: string keys to string values. *)
Module Storage.
Definition t : Type := list (string * string).

Fixpoint getItem (st : t) (k : string) : option string :=
  match st with
  | [] => None
  | (k', v) :: st' => if (k' =? k)%string then Some v else getItem st' k
  end.

Definition removeItem (st : t) (k : string) : t :=
  filter (fun kv => negb (fst kv =? k)%string) st.
End Storage.

(** The key under which the identity of a participant is kept:
    [`room_${roomId}_user`]. *)
Definition user_key (roomId : string) : string :=
  "room_" ++ roomId ++ "_user".

(* ------------------------------------------------------------------ *)
(** ** State of the service and of the component *)

Module RoomService.
(** The current values of the five [BehaviorSubject]s. *)
Record t : Type := mk {
  users : list User.t;
  room : option Room.t;
  votingResults : option VotingResults.t;
  estimationStarted : bool;
  resultsRevealed : bool
}.

Definition initial : t := mk [] None None false false.

Definition baseUrl : string :=
  "https://storypointpoker-backend-production.up.railway.app/api".

Definition set_users (s : t) (v : list User.t) : t :=
  mk v (room s) (votingResults s) (estimationStarted s) (resultsRevealed s).
Definition set_room (s : t) (v : option Room.t) : t :=
  mk (users s) v (votingResults s) (estimationStarted s) (resultsRevealed s).
Definition set_votingResults (s : t) (v : option VotingResults.t) : t :=
  mk (users s) (room s) v (estimationStarted s) (resultsRevealed s).
Definition set_estimationStarted (s : t) (v : bool) : t :=
  mk (users s) (room s) (votingResults s) v (resultsRevealed s).
Definition set_resultsRevealed (s : t) (v : bool) : t :=
  mk (users s) (room s) (votingResults s) (estimationStarted s) v.
End RoomService.

Module RoomComponent.
Record t : Type := mk {
  roomId : string;
  currentUser : option User.t;
  users : list User.t;
  selectedEstimate : option Estimate;
  showNameDialog : bool;
  userName : string;
  isAdmin : bool;
  storySummary : string;
  isEditingStory : bool;
  roomClosed : bool;
  room : option Room.t;
  estimationStarted : bool;
  resultsRevealed : bool;
  chartSegments : list ChartSegment.t;
  chartRadius : Q;
  chartCenterX : Q;
  chartCenterY : Q;
  urlCopied : bool
}.

(** The field initialisers of the class, for the room [rid]. *)
Definition initial (rid : string) : t :=
  mk rid None [] None false "" false "" false false None false false []
     (160 # 1) (175 # 1) (175 # 1) false.

Definition set_currentUser (c : t) (v : option User.t) : t :=
  mk (roomId c) v (users c) (selectedEstimate c) (showNameDialog c)
     (userName c) (isAdmin c) (storySummary c) (isEditingStory c)
     (roomClosed c) (room c) (estimationStarted c) (resultsRevealed c)
     (chartSegments c) (chartRadius c) (chartCenterX c) (chartCenterY c)
     (urlCopied c).
Definition set_users (c : t) (v : list User.t) : t :=
  mk (roomId c) (currentUser c) v (selectedEstimate c) (showNameDialog c)
     (userName c) (isAdmin c) (storySummary c) (isEditingStory c)
     (roomClosed c) (room c) (estimationStarted c) (resultsRevealed c)
     (chartSegments c) (chartRadius c) (chartCenterX c) (chartCenterY c)
     (urlCopied c).
Definition set_selectedEstimate (c : t) (v : option Estimate) : t :=
  mk (roomId c) (currentUser c) (users c) v (showNameDialog c)
     (userName c) (isAdmin c) (storySummary c) (isEditingStory c)
     (roomClosed c) (room c) (estimationStarted c) (resultsRevealed c)
     (chartSegments c) (chartRadius c) (chartCenterX c) (chartCenterY c)
     (urlCopied c).
Definition set_storySummary (c : t) (v : string) : t :=
  mk (roomId c) (currentUser c) (users c) (selectedEstimate c)
     (showNameDialog c) (userName c) (isAdmin c) v (isEditingStory c)
     (roomClosed c) (room c) (estimationStarted c) (resultsRevealed c)
     (chartSegments c) (chartRadius c) (chartCenterX c) (chartCenterY c)
     (urlCopied c).
Definition set_room (c : t) (v : option Room.t) : t :=
  mk (roomId c) (currentUser c) (users c) (selectedEstimate c)
     (showNameDialog c) (userName c) (isAdmin c) (storySummary c)
     (isEditingStory c) (roomClosed c) v (estimationStarted c)
     (resultsRevealed c) (chartSegments c) (chartRadius c) (chartCenterX c)
     (chartCenterY c) (urlCopied c).
Definition set_estimationStarted (c : t) (v : bool) : t :=
  mk (roomId c) (currentUser c) (users c) (selectedEstimate c)
     (showNameDialog c) (userName c) (isAdmin c) (storySummary c)
     (isEditingStory c) (roomClosed c) (room c) v (resultsRevealed c)
     (chartSegments c) (chartRadius c) (chartCenterX c) (chartCenterY c)
     (urlCopied c).
Definition set_resultsRevealed (c : t) (v : bool) : t :=
  mk (roomId c) (currentUser c) (users c) (selectedEstimate c)
     (showNameDialog c) (userName c) (isAdmin c) (storySummary c)
     (isEditingStory c) (roomClosed c) (room c) (estimationStarted c) v
     (chartSegments c) (chartRadius c) (chartCenterX c) (chartCenterY c)
     (urlCopied c).
Definition set_chartSegments (c : t) (v : list ChartSegment.t) : t :=
  mk (roomId c) (currentUser c) (users c) (selectedEstimate c)
     (showNameDialog c) (userName c) (isAdmin c) (storySummary c)
     (isEditingStory c) (roomClosed c) (room c) (estimationStarted c)
     (resultsRevealed c) v (chartRadius c) (chartCenterX c)
     (chartCenterY c) (urlCopied c).
End RoomComponent.

Module App.
(** The running application: the singleton service, the room component
    subscribed to it, and the browser's local storage. *)
Record t : Type := mk {
  service : RoomService.t;
  component : RoomComponent.t;
  localStorage : Storage.t
}.

Definition set_service (a : t) (s : RoomService.t) : t :=
  mk s (component a) (localStorage a).
Definition set_component (a : t) (c : RoomComponent.t) : t :=
  mk (service a) c (localStorage a).
Definition set_localStorage (a : t) (st : Storage.t) : t :=
  mk (service a) (component a) st.
End App.

(* ------------------------------------------------------------------ *)
(** ** Methods as state transformers with a log of outside calls *)

Definition M (A : Type) : Type := App.t -> A * App.t * list Effect.

Definition ret {A : Type} (x : A) : M A := fun a => (x, a, []).

Definition bind {A B : Type} (m : M A) (k : A -> M B) : M B :=
  fun a =>
    let '(x, a1, log1) := m a in
    let '(y, a2, log2) := k x a1 in
    (y, a2, (log1 ++ log2)%list).

Definition tell (e : Effect) : M unit := fun a => (tt, a, [e]).

Definition this : M RoomComponent.t := fun a => (App.component a, a, []).
Definition this_update (f : RoomComponent.t -> RoomComponent.t) : M unit :=
  fun a => (tt, App.set_component a (f (App.component a)), []).
Definition service : M RoomService.t := fun a => (App.service a, a, []).
Definition service_update (f : RoomService.t -> RoomService.t) : M unit :=
  fun a => (tt, App.set_service a (f (App.service a)), []).
Definition storage_update (f : Storage.t -> Storage.t) : M unit :=
  fun a => (tt, App.set_localStorage a (f (App.localStorage a)), []).

Definition when (b : bool) (m : M unit) : M unit :=
  if b then m else ret tt.

Declare Scope method_scope.
Delimit Scope method_scope with method.
Notation "x <- m ;; k" := (bind m (fun x => k))
  (at level 61, m at next level, right associativity) : method_scope.
Notation "m ;; k" := (bind m (fun _ => k))
  (at level 61, right associativity) : method_scope.
Local Open Scope method_scope.

(** State and log after running a method. *)
Definition exec {A : Type} (m : M A) (a : App.t) : App.t := snd (fst (m a)).
Definition log_of {A : Type} (m : M A) (a : App.t) : list Effect := snd (m a).

(* ------------------------------------------------------------------ *)
(** ** [RoomComponent]: the result chart *)

Section Component.

Context {math : MathLib}.

Definition getEstimateLabel (estimate : string) : string :=
  if (estimate =? "info")%string then "❓ Need more info"
  else if (estimate =? "split")%string then "✂️ Story too big"
  else estimate.

(** [getSegmentPath(segment)] *)
Definition getSegmentPath (c : RoomComponent.t) (segment : ChartSegment.t)
  : Template :=
  let centerX := RoomComponent.chartCenterX c in
  let centerY := RoomComponent.chartCenterY c in
  let radius := RoomComponent.chartRadius c in
  let startAngle :=
    ((ChartSegment.offset segment / 100) * 2 * Math_PI - Math_PI / 2)%Q in
  let endAngle :=
    (((ChartSegment.offset segment + ChartSegment.percentage segment) / 100)
     * 2 * Math_PI - Math_PI / 2)%Q in
  let x1 := (centerX + radius * Math_cos startAngle)%Q in
  let y1 := (centerY + radius * Math_sin startAngle)%Q in
  let x2 := (centerX + radius * Math_cos endAngle)%Q in
  let y2 := (centerY + radius * Math_sin endAngle)%Q in
  let largeArc : Q :=
    if Qgt_bool (ChartSegment.percentage segment) 50 then 1%Q else 0%Q in
  [Text "M "; Num centerX; Text " "; Num centerY;
   Text " L "; Num x1; Text " "; Num y1;
   Text " A "; Num radius; Text " "; Num radius;
   Text " 0 "; Num largeArc; Text " 1 "; Num x2; Text " "; Num y2;
   Text " Z"].

(** The filter of [generateChartData]:
    [!user.isAdmin && user.hasVoted && user.estimate]. *)
Definition is_voting_user (user : User.t) : bool :=
  negb (truthy_flag (User.isAdmin user))
  && User.hasVoted user
  && truthy (User.estimate user).

Definition votingUsers (users : list User.t) : list User.t :=
  filter is_voting_user users.

(** The body of the [forEach]:
    [estimateCounts[estimate] = (estimateCounts[estimate] || 0) + 1].
    The estimate is present for every user that passed the filter.
    Under the label [__proto__] nothing is written.  Under another
    inherited label the property is created as under any label, but the
    source reads a function the first time and so writes a text where the
    count is written here: counts are as in the source for the labels
    that are not inherited. *)
Definition count_vote (estimateCounts : JsObject.t Z) (user : User.t)
  : JsObject.t Z :=
  match User.estimate user with
  | Some e =>
      let estimate := Estimate_toString e in
      JsObject.set estimateCounts estimate
        (or_zero (JsObject.get estimateCounts estimate) + 1)
  | None => estimateCounts
  end.

Definition estimateCounts (users : list User.t) : JsObject.t Z :=
  fold_left count_vote (votingUsers users) JsObject.empty.

Definition colors : list string :=
  ["#4CAF50"; "#2196F3"; "#FF9800"; "#9C27B0"; "#F44336";
   "#00BCD4"; "#795548"; "#607D8B"; "#FFEB3B"; "#E91E63"].

(** The callback of [Object.entries(estimateCounts).map], at the current
    values of the two counters [colorIndex] and [cumulativePercentage]. *)
Definition chart_segment (c : RoomComponent.t) (totalVotes : Z)
    (colorIndex : nat) (cumulativePercentage : Q)
    (estimate : string) (count : Z) : ChartSegment.t :=
  let percentage := ((inject_Z count / inject_Z totalVotes) * 100)%Q in
  let centerX := RoomComponent.chartCenterX c in
  let centerY := RoomComponent.chartCenterY c in
  let radius := RoomComponent.chartRadius c in
  let pathData : Template :=
    if Qge_bool percentage (999 # 10) then
      [Text "M "; Num centerX; Text " "; Num (centerY - radius)%Q;
       Text " A "; Num radius; Text " "; Num radius;
       Text " 0 1 1 "; Num (centerX - (1 # 10))%Q; Text " ";
       Num (centerY - radius)%Q; Text " Z"]
    else
      let startAngle :=
        ((cumulativePercentage / 100) * 2 * Math_PI - Math_PI / 2)%Q in
      let endAngle :=
        (((cumulativePercentage + percentage) / 100) * 2 * Math_PI
         - Math_PI / 2)%Q in
      let x1 := (centerX + radius * Math_cos startAngle)%Q in
      let y1 := (centerY + radius * Math_sin startAngle)%Q in
      let x2 := (centerX + radius * Math_cos endAngle)%Q in
      let y2 := (centerY + radius * Math_sin endAngle)%Q in
      let largeArc : Q :=
        if Qgt_bool percentage 50 then 1%Q else 0%Q in
      [Text "M "; Num centerX; Text " "; Num centerY;
       Text " L "; Num x1; Text " "; Num y1;
       Text " A "; Num radius; Text " "; Num radius;
       Text " 0 "; Num largeArc; Text " 1 "; Num x2; Text " "; Num y2;
       Text " Z"] in
  ChartSegment.mk (getEstimateLabel estimate) count percentage
    (nth (colorIndex mod length colors)%nat colors "")
    cumulativePercentage (Some pathData).

(** The [map] itself: after each entry, [cumulativePercentage] grows by
    the percentage of the entry and [colorIndex] by one. *)
Fixpoint map_entries (c : RoomComponent.t) (totalVotes : Z)
    (entries : list (string * Z)) (colorIndex : nat)
    (cumulativePercentage : Q) : list ChartSegment.t :=
  match entries with
  | [] => []
  | (estimate, count) :: rest =>
      let segment :=
        chart_segment c totalVotes colorIndex cumulativePercentage
          estimate count in
      segment
        :: map_entries c totalVotes rest (S colorIndex)
             (cumulativePercentage + ChartSegment.percentage segment)%Q
  end.

(** The value assigned to [this.chartSegments] by [generateChartData]. *)
Definition generated_segments (c : RoomComponent.t) : list ChartSegment.t :=
  let users := RoomComponent.users c in
  let totalVotes := Z.of_nat (length (votingUsers users)) in
  map_entries c totalVotes (JsObject.entries (estimateCounts users))
    0%nat 0%Q.

Definition generateChartData : M unit :=
  this_update (fun c =>
    RoomComponent.set_chartSegments c (generated_segments c)) ;;
  tell SetTimeout_detectChanges.

Definition updateChartData : M unit :=
  c <- this ;;
  if RoomComponent.resultsRevealed c
  then generateChartData
  else this_update (fun c => RoomComponent.set_chartSegments c []).

(* ---------------------------------------------------------------- *)
(** ** [RoomService]: outbound calls *)

(** [submitVoteSocket]: [socket.emit('submit-vote', ...)]. *)
Definition submitVoteSocket (roomId userId estimate : string) : M unit :=
  tell (Socket_emit_submit_vote roomId userId estimate).

(** [leaveRoom]: [http.delete(`${baseUrl}/rooms/${roomId}/users/${userId}`)];
    the request is answered later, see [HttpOutcome]. *)
Definition leaveRoom (roomId userId : string) : M unit :=
  tell (Http_delete
          (RoomService.baseUrl ++ "/rooms/" ++ roomId ++ "/users/" ++ userId)).

(* ---------------------------------------------------------------- *)
(** ** [RoomComponent]: subscriptions ([setupSubscriptions]) *)

(** [users$] *)
Definition on_users (users : list User.t) : M unit :=
  this_update (fun c => RoomComponent.set_users c users) ;;
  updateChartData.

(** [room$] *)
Definition on_room (room : option Room.t) : M unit :=
  this_update (fun c => RoomComponent.set_room c room) ;;
  match room with
  | Some r =>
      this_update (fun c =>
        RoomComponent.set_storySummary c
          (or_string
             (or_string (Story.title (Room.story r))
                        (Story.description (Room.story r)))
             ""))
  | None => ret tt
  end.

(** [votingResults$] *)
Definition on_votingResults (results : option VotingResults.t) : M unit :=
  match results with
  | Some _ => updateChartData
  | None => ret tt
  end.

(** [estimationStarted$] *)
Definition on_estimationStarted (started : bool) : M unit :=
  this_update (fun c => RoomComponent.set_estimationStarted c started).

(** [resultsRevealed$] *)
Definition on_resultsRevealed (revealed : bool) : M unit :=
  this_update (fun c => RoomComponent.set_resultsRevealed c revealed) ;;
  when revealed
    (updateChartData ;;
     this_update (fun c => RoomComponent.set_selectedEstimate c None) ;;
     tell ShowConfetti).

(** A [BehaviorSubject] hands its current value to a new subscriber. *)
Definition setupSubscriptions : M unit :=
  s <- service ;;
  on_users (RoomService.users s) ;;
  on_room (RoomService.room s) ;;
  on_votingResults (RoomService.votingResults s) ;;
  on_estimationStarted (RoomService.estimationStarted s) ;;
  on_resultsRevealed (RoomService.resultsRevealed s).

(* ---------------------------------------------------------------- *)
(** ** [RoomComponent]: casting a vote, closing the room *)

(** [user.estimate = e; user.hasVoted = v] *)
Definition set_vote (user : User.t) (e : option Estimate) (v : bool)
  : User.t :=
  User.mk (User.id user) (User.name user) e v
          (User.isAdmin user) (User.connected user).

Definition selectEstimate (point : Estimate) : M unit :=
  c <- this ;;
  if negb (RoomComponent.estimationStarted c) then ret tt
  else
    match RoomComponent.currentUser c with
    | Some currentUser =>
        if strict_eq (RoomComponent.selectedEstimate c) point then
          this_update (fun c => RoomComponent.set_selectedEstimate c None) ;;
          this_update (fun c =>
            RoomComponent.set_currentUser c
              (Some (set_vote currentUser None false))) ;;
          submitVoteSocket (RoomComponent.roomId c) (User.id currentUser) ""
        else
          this_update (fun c =>
            RoomComponent.set_selectedEstimate c (Some point)) ;;
          this_update (fun c =>
            RoomComponent.set_currentUser c
              (Some (set_vote currentUser (Some point) true))) ;;
          submitVoteSocket (RoomComponent.roomId c) (User.id currentUser)
            (Estimate_toString point)
    | None => ret tt
    end.

(** [closeRoom()] opens the confirmation dialog ... *)
Definition closeRoom : M unit :=
  tell (Swal_fire "warning" "Close Room?").

(** ... whose [then] callback sends the leave request when the dialog was
    confirmed and there is a current user; the result tells whether the
    request was sent ... *)
Definition closeRoom_then (isConfirmed : bool) : M bool :=
  c <- this ;;
  match isConfirmed, RoomComponent.currentUser c with
  | true, Some currentUser =>
      leaveRoom (RoomComponent.roomId c) (User.id currentUser) ;;
      ret true
  | _, _ => ret false
  end.

(** ... and whose subscription has a [next] and an [error] callback. *)
Definition closeRoom_next : M unit :=
  c <- this ;;
  storage_update (fun st =>
    Storage.removeItem st (user_key (RoomComponent.roomId c))) ;;
  tell (Router_navigate ["/"]).

Definition closeRoom_error : M unit :=
  c <- this ;;
  storage_update (fun st =>
    Storage.removeItem st (user_key (RoomComponent.roomId c))) ;;
  tell (Router_navigate ["/"]) ;;
  tell (Swal_fire "warning" "Warning").

(** One whole run of [closeRoom]: the dialog is answered, and the request,
    if sent, is answered. *)
Definition closeRoom_run (isConfirmed : bool) (outcome : HttpOutcome)
  : M unit :=
  closeRoom ;;
  sent <- closeRoom_then isConfirmed ;;
  if sent then
    match outcome with
    | Http_next _ _ => closeRoom_next
    | Http_error => closeRoom_error
    end
  else ret tt.

(* ---------------------------------------------------------------- *)
(** ** [RoomService]: the socket handlers of [initializeSocket] *)

(** [subject.next(v)] stores the value and runs the subscriber. *)
Definition usersSubject_next (v : list User.t) : M unit :=
  service_update (fun s => RoomService.set_users s v) ;; on_users v.
Definition roomSubject_next (v : option Room.t) : M unit :=
  service_update (fun s => RoomService.set_room s v) ;; on_room v.
Definition votingResultsSubject_next (v : option VotingResults.t) : M unit :=
  service_update (fun s => RoomService.set_votingResults s v) ;;
  on_votingResults v.
Definition estimationStartedSubject_next (v : bool) : M unit :=
  service_update (fun s => RoomService.set_estimationStarted s v) ;;
  on_estimationStarted v.
Definition resultsRevealedSubject_next (v : bool) : M unit :=
  service_update (fun s => RoomService.set_resultsRevealed s v) ;;
  on_resultsRevealed v.

(** The counting loop of the [votes-revealed] handler:
    [estimates[estimate] = (estimates[estimate] || 0) + 1] for the
    participants with [user.hasVoted && user.estimate]; inherited labels
    as in [count_vote]. *)
Definition count_revealed (estimates : JsObject.t Z) (user : User.t)
  : JsObject.t Z :=
  if User.hasVoted user && truthy (User.estimate user) then
    match User.estimate user with
    | Some e =>
        let estimate := Estimate_toString e in
        JsObject.set estimates estimate
          (or_zero (JsObject.get estimates estimate) + 1)
    | None => estimates
    end
  else estimates.

Definition handle (e : InboundEvent) : M unit :=
  match e with
  | Room_state room users results =>
      roomSubject_next (Some room) ;;
      usersSubject_next users ;;
      votingResultsSubject_next results ;;
      resultsRevealedSubject_next (Room.votingRevealed room)
  | User_joined _ room users =>
      usersSubject_next users ;;
      roomSubject_next (Some room)
  | User_left _ room users =>
      usersSubject_next users ;;
      roomSubject_next (Some room)
  | User_disconnected _ users =>
      usersSubject_next users
  | Vote_submitted _ users results =>
      usersSubject_next users ;;
      votingResultsSubject_next results
  | Votes_revealed revealed votes summary =>
      let estimates := fold_left count_revealed votes JsObject.empty in
      let votingResults :=
        VotingResults.mk
          (or_zero (match summary with
                    | Some s => Summary.totalVotes s
                    | None => None
                    end))
          estimates
          None
          (match summary with
           | Some s => Summary.mostCommon s
           | None => None
           end)
          (Some revealed) in
      votingResultsSubject_next (Some votingResults) ;;
      usersSubject_next votes ;;
      resultsRevealedSubject_next revealed
  | Voting_reset users results =>
      usersSubject_next users ;;
      votingResultsSubject_next results ;;
      resultsRevealedSubject_next false ;;
      estimationStartedSubject_next false
  | Estimation_started users results =>
      usersSubject_next users ;;
      votingResultsSubject_next results ;;
      estimationStartedSubject_next true ;;
      resultsRevealedSubject_next false
  | Story_updated story _ =>
      s <- service ;;
      match RoomService.room s with
      | Some currentRoom =>
          roomSubject_next (Some (Room.with_story currentRoom story))
      | None => ret tt
      end
  | Socket_error message =>
      tell (Console_error message)
  end.

(** Processing a sequence of events, in the order of delivery. *)
Fixpoint handle_all (es : list InboundEvent) : M unit :=
  match es with
  | [] => ret tt
  | e :: es' => handle e ;; handle_all es'
  end.

End Component.

(** The application when the component of room [rid] has just subscribed
    to a fresh service. *)
Definition App_initial (rid : string) : App.t :=
  App.mk RoomService.initial (RoomComponent.initial rid) [].

(** A rational stand-in for the engine's [Math], to run the model on
    examples: 355/113 and the Taylor polynomials of degree 6 and 7.  The
    theorems below are proved for every [MathLib]. *)
Definition rationalMath : MathLib :=
  {| Math_PI := 355 # 113;
     Math_cos := fun x =>
       (1 - x * x / 2 + x * x * x * x / 24
        - x * x * x * x * x * x / 720)%Q;
     Math_sin := fun x =>
       (x - x * x * x / 6 + x * x * x * x * x / 120
        - x * x * x * x * x * x * x / 5040)%Q |}.

(* ------------------------------------------------------------------ *)
(** ** Vocabulary of the properties *)

(** Sum of a list of numbers. *)
Definition Qsum (l : list Q) : Q := fold_right Qplus 0%Q l.

(** The labels of the participants that bear an estimate. *)
Definition labels_of (users : list User.t) : list string :=
  flat_map (fun u =>
              match User.estimate u with
              | Some e => [Estimate_toString e]
              | None => []
              end) users.

(** The labels counted by [generateChartData], in the order of the
    participant list. *)
Definition counted_estimates (users : list User.t) : list string :=
  labels_of (votingUsers users).

(** One turn of the counting loop, on the label of the participant. *)
Definition count_label (o : JsObject.t Z) (k : string) : JsObject.t Z :=
  JsObject.set o k (or_zero (JsObject.get o k) + 1).

(** The same turn when the label is not [__proto__]. *)
Definition count_own (o : JsObject.t Z) (k : string) : JsObject.t Z :=
  JsObject.define o k (or_zero (JsObject.get o k) + 1).

(** A label is ordinary when it is not the name of a member of
    [Object.prototype]; the cards of the application (1, 3, 5, 8, 13, info,
    split) are. *)
Definition ordinary_label (k : string) : bool := negb (JsObject.inherited k).

Definition ordinary_labels (ls : list string) : bool :=
  forallb ordinary_label ls.

(** The labels that leave a trace in a counting object: all but
    [__proto__]. *)
Definition recorded (ls : list string) : list string :=
  filter (fun k => negb (k =? "__proto__")%string) ls.

(** The percentage of an entry of the counting object. *)
Definition share (totalVotes : Z) (kv : string * Z) : Q :=
  ((inject_Z (snd kv) / inject_Z totalVotes) * 100)%Q.

(** Membership in a list of labels. *)
Definition mem (k : string) (l : list string) : bool :=
  existsb (fun k' => (k' =? k)%string) l.

(** The distinct elements of a list, each at the place of its first
    occurrence. *)
Fixpoint first_occurrences_from (seen l : list string) : list string :=
  match l with
  | [] => []
  | k :: l' =>
      if mem k seen then first_occurrences_from seen l'
      else k :: first_occurrences_from (k :: seen) l'
  end.

Definition first_occurrences (l : list string) : list string :=
  first_occurrences_from [] l.

(** Number of occurrences of a label. *)
Definition occurrences (k : string) (l : list string) : Z :=
  Z.of_nat (count_occ string_dec l k).

(** The two shapes of path written by [generateChartData]: the whole disc,
    drawn from the top of the circle to a point a tenth of a unit to its
    left, and a wedge from [(x1, y1)] to [(x2, y2)]. *)
Definition full_circle_path (c : RoomComponent.t) : Template :=
  let cx := RoomComponent.chartCenterX c in
  let cy := RoomComponent.chartCenterY c in
  let r := RoomComponent.chartRadius c in
  [Text "M "; Num cx; Text " "; Num (cy - r)%Q;
   Text " A "; Num r; Text " "; Num r;
   Text " 0 1 1 "; Num (cx - (1 # 10))%Q; Text " "; Num (cy - r)%Q;
   Text " Z"].

Definition wedge_path (c : RoomComponent.t) (x1 y1 largeArc x2 y2 : Q)
  : Template :=
  let cx := RoomComponent.chartCenterX c in
  let cy := RoomComponent.chartCenterY c in
  let r := RoomComponent.chartRadius c in
  [Text "M "; Num cx; Text " "; Num cy;
   Text " L "; Num x1; Text " "; Num y1;
   Text " A "; Num r; Text " "; Num r;
   Text " 0 "; Num largeArc; Text " 1 "; Num x2; Text " "; Num y2;
   Text " Z"].

(** Ascending numeric order of array-index keys. *)
Definition index_order (k k' : string) : Prop :=
  (JsObject.index_of k <= JsObject.index_of k')%N.

(** The value of the in-progress flag of the service after an event. *)
Definition started_after (e : InboundEvent) (before : bool) : bool :=
  match e with
  | Voting_reset _ _ => false
  | Estimation_started _ _ => true
  | _ => before
  end.

(** The value of the revealed flag of the service after an event. *)
Definition revealed_after (e : InboundEvent) (before : bool) : bool :=
  match e with
  | Room_state room _ _ => Room.votingRevealed room
  | Votes_revealed revealed _ _ => revealed
  | Voting_reset _ _ => false
  | Estimation_started _ _ => false
  | _ => before
  end.

(** The invariant of the specification on the two phase flags. *)
Definition phase_invariant (started revealed : bool) : Prop :=
  (started = true -> revealed = false) /\ (revealed = true -> started = true).

(** The state of the component after a card was taken or put back. *)
Definition with_vote (c : RoomComponent.t) (u : User.t)
    (sel : option Estimate) (voted : bool) : RoomComponent.t :=
  RoomComponent.set_currentUser
    (RoomComponent.set_selectedEstimate c sel)
    (Some (set_vote u sel voted)).

(* ------------------------------------------------------------------ *)
(** ** Sample sessions *)

(** A participant who is not an admin and voted [e]. *)
Definition voter (id : string) (e : Estimate) : User.t :=
  User.mk id id (Some e) true (Some false) None.

(** A component showing the revealed votes of [users]. *)
Definition revealed_component (users : list User.t) : RoomComponent.t :=
  RoomComponent.set_resultsRevealed
    (RoomComponent.set_users (RoomComponent.initial "room") users) true.

(** The application around a component, with a fresh service. *)
Definition app_of (c : RoomComponent.t) : App.t :=
  App.mk RoomService.initial c [].

(** Three voters with 5, 5 and 8; two voters with 8 and then 5. *)
Definition users_5_5_8 : list User.t :=
  [voter "ann" (ENumber 5); voter "bob" (ENumber 5); voter "cyd" (ENumber 8)].

Definition users_8_5 : list User.t :=
  [voter "ann" (ENumber 8); voter "bob" (ENumber 5)].

(** Four voters with split, 8, 5 and split. *)
Definition users_split_8_5 : list User.t :=
  [voter "ann" (EString "split"); voter "bob" (ENumber 8);
   voter "cyd" (ENumber 5); voter "dan" (EString "split")].

(** Two voters with the text [__proto__]; a voter with 5 and one with that
    text. *)
Definition users_proto : list User.t :=
  [voter "ann" (EString "__proto__"); voter "bob" (EString "__proto__")].

Definition users_5_proto : list User.t :=
  [voter "ann" (ENumber 5); voter "bob" (EString "__proto__")].

(** The wedge of the label 5 in the chart of the first sample. *)
Definition segment_5_of_5_5_8 {math : MathLib} : ChartSegment.t :=
  chart_segment (revealed_component users_5_5_8) 3 0 0 "5" 2.

(** A session in which the participant [ann] has joined, estimation is in
    progress and the card [sel] is selected. *)
Definition voting_component (sel : option Estimate) : RoomComponent.t :=
  RoomComponent.set_estimationStarted
    (RoomComponent.set_selectedEstimate
       (RoomComponent.set_currentUser (RoomComponent.initial "room")
          (Some (User.mk "u1" "ann" sel
                   (match sel with Some _ => true | None => false end)
                   (Some false) None)))
       sel)
    true.

(** A session whose identity is kept in the local storage. *)
Definition stored_session : App.t :=
  App.mk RoomService.initial (voting_component None)
         [(user_key "room", "{id: u1, name: ann, isAdmin: true}");
          (user_key "other", "{id: u9, name: zoe}")].

(* ------------------------------------------------------------------ *)
(** ** Tactics for running the methods *)

Ltac unfold_methods :=
  unfold exec, log_of, handle,
    usersSubject_next, roomSubject_next, votingResultsSubject_next,
    estimationStartedSubject_next, resultsRevealedSubject_next,
    on_users, on_room, on_votingResults, on_estimationStarted,
    on_resultsRevealed, updateChartData, generateChartData,
    when, bind, ret, tell, this, this_update, service, service_update,
    storage_update.

Ltac run_methods :=
  unfold_methods; cbn -[generated_segments];
  repeat (match goal with
          | |- context [if ?b then _ else _] => destruct b
          | |- context [match ?x with Some _ => _ | None => _ end] =>
              destruct x
          end; cbn -[generated_segments]).

(* ------------------------------------------------------------------ *)
(** ** [RoomComponent]: the round, the story and the progress display *)

(** What these methods hand to the outside: a message on the socket
    ([socket.emit(event, payload)], the payload as its fields in order) or a
    timer. *)
Inductive Action : Type :=
| Emit (event : string) (payload : list (string * string))
| SetTimeout (milliseconds : Z).

(** [RoomService]: the remaining socket operations. *)
Definition leaveSocketRoom (roomId userId : string) : Action :=
  Emit "leave-room" [("roomId", roomId); ("userId", userId)].
Definition revealVotesSocket (roomId userId : string) : Action :=
  Emit "reveal-votes" [("roomId", roomId); ("userId", userId)].
Definition resetVotingSocket (roomId userId : string) : Action :=
  Emit "reset-voting" [("roomId", roomId); ("userId", userId)].
Definition updateStorySocket (roomId userId title description : string)
  : Action :=
  Emit "update-story"
    [("roomId", roomId); ("userId", userId);
     ("title", title); ("description", description)].
Definition startEstimationSocket (roomId userId : string) : Action :=
  Emit "start-estimation" [("roomId", roomId); ("userId", userId)].

Definition set_isEditingStory (c : RoomComponent.t) (v : bool)
  : RoomComponent.t :=
  RoomComponent.mk (RoomComponent.roomId c) (RoomComponent.currentUser c)
    (RoomComponent.users c) (RoomComponent.selectedEstimate c)
    (RoomComponent.showNameDialog c) (RoomComponent.userName c)
    (RoomComponent.isAdmin c) (RoomComponent.storySummary c) v
    (RoomComponent.roomClosed c) (RoomComponent.room c)
    (RoomComponent.estimationStarted c) (RoomComponent.resultsRevealed c)
    (RoomComponent.chartSegments c) (RoomComponent.chartRadius c)
    (RoomComponent.chartCenterX c) (RoomComponent.chartCenterY c)
    (RoomComponent.urlCopied c).


(** [revealResults()] *)
Definition revealResults (c : RoomComponent.t)
  : RoomComponent.t * list Action :=
  match RoomComponent.currentUser c with
  | Some currentUser =>
      (c, [revealVotesSocket (RoomComponent.roomId c) (User.id currentUser)])
  | None => (c, [])
  end.

(** [estimateAgain()] *)
Definition estimateAgain (c : RoomComponent.t)
  : RoomComponent.t * list Action :=
  match RoomComponent.currentUser c with
  | Some currentUser =>
      (RoomComponent.set_selectedEstimate c None,
       [resetVotingSocket (RoomComponent.roomId c) (User.id currentUser)])
  | None => (c, [])
  end.

(** [resetAndStartEstimation()]: the part that runs at once ... *)
Definition resetAndStartEstimation (c : RoomComponent.t)
  : RoomComponent.t * list Action :=
  match RoomComponent.currentUser c with
  | Some currentUser =>
      (RoomComponent.set_selectedEstimate c None,
       [resetVotingSocket (RoomComponent.roomId c) (User.id currentUser);
        SetTimeout 200])
  | None => (c, [])
  end.

(** ... and the callback of its timer, on the component as it is then. *)
Definition resetAndStartEstimation_timeout (c : RoomComponent.t)
  : list Action :=
  match RoomComponent.currentUser c with
  | Some currentUser =>
      [startEstimationSocket (RoomComponent.roomId c) (User.id currentUser)]
  | None => []
  end.

(** [editStory()]; the callback of the timer only moves the focus. *)
Definition editStory (c : RoomComponent.t) : RoomComponent.t * list Action :=
  (set_isEditingStory c true, [SetTimeout 100]).

(** [saveStory()] *)
Definition saveStory (c : RoomComponent.t) : RoomComponent.t * list Action :=
  (set_isEditingStory c false,
   match RoomComponent.currentUser c with
   | Some currentUser =>
       [updateStorySocket (RoomComponent.roomId c) (User.id currentUser)
          (RoomComponent.storySummary c) ""]
   | None => []
   end).

(** [room.story.title || room.story.description || ''] *)
Definition story_text (r : Room.t) : string :=
  or_string (or_string (Story.title (Room.story r))
                       (Story.description (Room.story r))) "".

(** [cancelEditStory()] *)
Definition cancelEditStory (c : RoomComponent.t) : RoomComponent.t :=
  set_isEditingStory
    (RoomComponent.set_storySummary c
       (match RoomComponent.room c with
        | Some r => story_text r
        | None => ""
        end))
    false.

(** [ngOnDestroy()], for the message it sends. *)
Definition ngOnDestroy (c : RoomComponent.t) : list Action :=
  match RoomComponent.currentUser c with
  | Some currentUser =>
      [leaveSocketRoom (RoomComponent.roomId c) (User.id currentUser)]
  | None => []
  end.

(** The two lists of the getters [allUsersVoted] and [votingProgress]:
    [users.filter(user => !user.isAdmin)] and, among these,
    [filter(user => user.hasVoted)]. *)
Definition nonAdminUsers (users : list User.t) : list User.t :=
  filter (fun user => negb (truthy_flag (User.isAdmin user))) users.

Definition votedUsers (users : list User.t) : list User.t :=
  filter User.hasVoted (nonAdminUsers users).

(** [get allUsersVoted()] *)
Definition allUsersVoted (c : RoomComponent.t) : bool :=
  existsb User.hasVoted (nonAdminUsers (RoomComponent.users c)).

(** A length in a template literal. *)
Definition length_toString (n : nat) : string :=
  NilZero.string_of_uint (Nat.to_uint n).

(** [get votingProgress()]: [`${votedCount}/${votingUsers.length}`] *)
Definition votingProgress (c : RoomComponent.t) : string :=
  let votingUsers := nonAdminUsers (RoomComponent.users c) in
  let votedCount := length (filter User.hasVoted votingUsers) in
  length_toString votedCount ++ "/" ++ length_toString (length votingUsers).

(** Pressing the same card [n] times. *)
Fixpoint press (point : Estimate) (n : nat) : M unit :=
  match n with
  | O => ret tt
  | S n' => selectEstimate point ;; press point n'
  end.

(* ------------------------------------------------------------------ *)
(** ** Vocabulary of the further properties *)

(** The events that carry a room snapshot. *)
Definition room_of_event (e : InboundEvent) : option Room.t :=
  match e with
  | Room_state room _ _ => Some room
  | User_joined _ room _ => Some room
  | User_left _ room _ => Some room
  | _ => None
  end.

(** The component shows what the service holds. *)
Definition mirrors (a : App.t) : Prop :=
  RoomComponent.users (App.component a) = RoomService.users (App.service a)
  /\ RoomComponent.room (App.component a) = RoomService.room (App.service a)
  /\ RoomComponent.estimationStarted (App.component a)
     = RoomService.estimationStarted (App.service a)
  /\ RoomComponent.resultsRevealed (App.component a)
     = RoomService.resultsRevealed (App.service a).

(** While results are revealed, the wedges on display are those of the
    participant list on display. *)
Definition chart_current {math : MathLib} (c : RoomComponent.t) : Prop :=
  RoomComponent.resultsRevealed c = true ->
  RoomComponent.chartSegments c = generated_segments c.

(** The effects that stay inside the page. *)
Definition local_effect (e : Effect) : Prop :=
  match e with
  | SetTimeout_detectChanges | ShowConfetti | Console_error _ => True
  | _ => False
  end.

(** The participants counted by the [votes-revealed] handler. *)
Definition revealed_voters (votes : list User.t) : list User.t :=
  filter (fun user => User.hasVoted user && truthy (User.estimate user)) votes.

(** A participant who has not voted, and an admin who has. *)
Definition idle (id : string) : User.t :=
  User.mk id id None false (Some false) None.

Definition admin_voter (id : string) (e : Estimate) : User.t :=
  User.mk id id (Some e) true (Some true) None.

(** The wedge of the label 8 in the chart of the first sample. *)
Definition segment_8_of_5_5_8 {math : MathLib} : ChartSegment.t :=
  chart_segment (revealed_component users_5_5_8) 3 1
    (0 + ChartSegment.percentage segment_5_of_5_5_8)%Q "8" 1.

(** Sum of a list of counts. *)
Definition Zsum (l : list Z) : Z := fold_right Z.add 0 l.

(* ------------------------------------------------------------------ *)
(** ** Facts about dictionaries *)

Module JsObjectFacts.
Import JsObject.

Lemma mem_app (k : string) (l1 l2 : list string) :
  mem k (l1 ++ l2)%list = mem k l1 || mem k l2.
Proof. unfold mem. apply existsb_app. Qed.

Lemma mem_In (k : string) (l : list string) : mem k l = true <-> In k l.
Proof.
  unfold mem. rewrite existsb_exists. split.
  - intros [k' [Hin Hk]]. apply String.eqb_eq in Hk. now subst.
  - intros Hin. exists k. split; [assumption | apply String.eqb_refl].
Qed.

Lemma get_None_mem {V : Type} (o : t V) (k : string) :
  get o k = None <-> mem k (keys o) = false.
Proof.
  induction o as [|[k' v] o IH]; simpl.
  - tauto.
  - destruct (k' =? k)%string; simpl.
    + split; discriminate.
    + exact IH.
Qed.

Lemma keys_define {V : Type} (o : t V) (k : string) (v : V) :
  keys (define o k v)
  = if mem k (keys o) then keys o else (keys o ++ [k])%list.
Proof.
  induction o as [|[k' v'] o IH]; simpl.
  - reflexivity.
  - destruct (k' =? k)%string eqn:E; simpl.
    + reflexivity.
    + rewrite IH. now destruct (mem k (keys o)).
Qed.

Lemma get_define_same {V : Type} (o : t V) (k : string) (v : V) :
  get (define o k v) k = Some v.
Proof.
  induction o as [|[k' v'] o IH]; simpl.
  - now rewrite String.eqb_refl.
  - destruct (k' =? k)%string eqn:E; simpl; rewrite E; auto.
Qed.

Lemma get_define_other {V : Type} (o : t V) (k k0 : string) (v : V) :
  k <> k0 -> get (define o k v) k0 = get o k0.
Proof.
  intros Hne. induction o as [|[k' v'] o IH]; simpl.
  - destruct (String.eqb_spec k k0); [contradiction | reflexivity].
  - destruct (String.eqb_spec k' k) as [->|Hk]; simpl.
    + destruct (String.eqb_spec k k0); [contradiction | reflexivity].
    + now rewrite IH.
Qed.

Lemma sum_values_define (o : t Z) (k : string) :
  sum_values (define o k (or_zero (get o k) + 1)) = sum_values o + 1.
Proof.
  induction o as [|[k' v'] o IH]; simpl.
  - reflexivity.
  - destruct (k' =? k)%string; simpl.
    + lia.
    + rewrite IH. lia.
Qed.

(** An assignment writes the own property, except under [__proto__]. *)
Lemma set_define {V : Type} (o : t V) (k : string) (v : V) :
  k <> "__proto__" -> set o k v = define o k v.
Proof.
  intros Hne. unfold set. destruct (get o k); [reflexivity|].
  destruct (String.eqb_spec k "__proto__"); [contradiction | reflexivity].
Qed.

Lemma set_proto {V : Type} (o : t V) (v : V) :
  get o "__proto__" = None -> set o "__proto__" v = o.
Proof.
  intros Hget. unfold set. now rewrite Hget.
Qed.

(** Sorting by index rearranges the properties and orders them. *)
Lemma insert_by_index_perm {V : Type} (x : string * V) (l : t V) :
  Permutation (insert_by_index x l) (x :: l).
Proof.
  induction l as [|y l IH]; simpl.
  - apply Permutation_refl.
  - destruct (index_of (fst x) <=? index_of (fst y))%N.
    + apply Permutation_refl.
    + eapply perm_trans; [apply perm_skip, IH | apply perm_swap].
Qed.

Lemma sort_by_index_perm {V : Type} (l : t V) :
  Permutation (sort_by_index l) l.
Proof.
  induction l as [|x l IH]; simpl.
  - apply perm_nil.
  - eapply perm_trans; [apply insert_by_index_perm | now apply perm_skip].
Qed.

Lemma insert_by_index_sorted {V : Type} (x : string * V) (l : t V) :
  StronglySorted index_le l -> StronglySorted index_le (insert_by_index x l).
Proof.
  intros Hs. induction Hs as [|y l Hs IH Hall]; simpl.
  - constructor; constructor.
  - destruct (N.leb_spec (index_of (fst x)) (index_of (fst y))) as [Hle|Hgt].
    + constructor.
      * now constructor.
      * constructor; [exact Hle|].
        eapply Forall_impl; [|exact Hall].
        intros z Hz. unfold index_le in *. lia.
    + constructor; [exact IH|].
      apply (Permutation_Forall (x := x :: l)).
      * apply Permutation_sym, insert_by_index_perm.
      * constructor; [unfold index_le; lia | exact Hall].
Qed.

Lemma sort_by_index_sorted {V : Type} (l : t V) :
  StronglySorted index_le (sort_by_index l).
Proof.
  induction l as [|x l IH]; simpl.
  - constructor.
  - now apply insert_by_index_sorted.
Qed.

Lemma entries_perm {V : Type} (o : t V) : Permutation (entries o) o.
Proof.
  unfold entries, index_props, string_props.
  eapply perm_trans.
  - apply Permutation_app_tail, sort_by_index_perm.
  - induction o as [|x o IH]; simpl.
    + apply perm_nil.
    + destruct (is_index (fst x)); simpl.
      * now apply perm_skip.
      * eapply perm_trans; [apply Permutation_sym, Permutation_middle|].
        now apply perm_skip.
Qed.

Lemma sum_values_perm (o1 o2 : t Z) :
  Permutation o1 o2 -> sum_values o1 = sum_values o2.
Proof.
  induction 1; simpl; lia.
Qed.

Lemma keys_filter {V : Type} (f : string -> bool) (o : t V) :
  keys (filter (fun kv => f (fst kv)) o) = filter f (keys o).
Proof.
  induction o as [|[k v] o IH]; simpl.
  - reflexivity.
  - destruct (f k); simpl; now rewrite IH.
Qed.

End JsObjectFacts.

(* ------------------------------------------------------------------ *)
(** ** Facts about the counting loop *)

Module CountingFacts.
Import JsObject JsObjectFacts.

Lemma fold_count_vote (users : list User.t) (o : t Z) :
  fold_left count_vote users o = fold_left count_label (labels_of users) o.
Proof.
  revert o. induction users as [|u users IH]; intros o; simpl.
  - reflexivity.
  - unfold count_vote at 2. destruct (User.estimate u); simpl; apply IH.
Qed.

Lemma first_occurrences_from_ext (s1 s2 l : list string) :
  (forall k, mem k s1 = mem k s2) ->
  first_occurrences_from s1 l = first_occurrences_from s2 l.
Proof.
  revert s1 s2. induction l as [|k l IH]; intros s1 s2 Hext; simpl.
  - reflexivity.
  - rewrite (Hext k). destruct (mem k s2).
    + now apply IH.
    + f_equal. apply IH. intros k'. simpl. now rewrite Hext.
Qed.

Lemma keys_fold_count (ls : list string) (o : t Z) :
  keys (fold_left count_own ls o)
  = (keys o ++ first_occurrences_from (keys o) ls)%list.
Proof.
  revert o. induction ls as [|k ls IH]; intros o; simpl.
  - now rewrite app_nil_r.
  - rewrite IH. unfold count_own at 1 2. rewrite keys_define.
    destruct (mem k (keys o)) eqn:Hmem.
    + reflexivity.
    + rewrite <- app_assoc. simpl. do 2 f_equal.
      apply first_occurrences_from_ext. intros k'.
      rewrite mem_app. simpl. now rewrite orb_false_r, orb_comm.
Qed.

Lemma occurrences_cons (k k' : string) (l : list string) :
  occurrences k (k' :: l)
  = (if (k' =? k)%string then 1 else 0) + occurrences k l.
Proof.
  unfold occurrences. simpl.
  destruct (string_dec k' k) as [->|Hne].
  - rewrite String.eqb_refl. lia.
  - destruct (String.eqb_spec k' k); [contradiction | lia].
Qed.

Lemma get_fold_count (ls : list string) (o : t Z) (k : string) :
  get (fold_left count_own ls o) k
  = if mem k (keys o) || mem k ls
    then Some (or_zero (get o k) + occurrences k ls)
    else None.
Proof.
  revert o. induction ls as [|k' ls IH]; intros o; simpl.
  - rewrite orb_false_r. unfold occurrences. simpl.
    destruct (get o k) as [v|] eqn:Hget.
    + destruct (mem k (keys o)) eqn:Hmem.
      * simpl. f_equal. lia.
      * apply get_None_mem in Hmem. congruence.
    + apply get_None_mem in Hget. now rewrite Hget.
  - rewrite IH, occurrences_cons. unfold count_own. rewrite keys_define.
    change (mem k (k' :: ls)) with ((k' =? k)%string || mem k ls).
    destruct (String.eqb_spec k' k) as [->|Hne].
    + rewrite get_define_same.
      replace (mem k (if mem k (keys o) then keys o
                      else (keys o ++ [k])%list)) with true.
      * cbn [orb or_zero]. rewrite orb_true_r. f_equal. lia.
      * destruct (mem k (keys o)) eqn:Hmem; [now rewrite Hmem|].
        rewrite mem_app, orb_comm. cbn [mem existsb].
        now rewrite String.eqb_refl.
    + rewrite get_define_other by assumption.
      replace (mem k (if mem k' (keys o) then keys o
                      else (keys o ++ [k'])%list)) with (mem k (keys o)).
      * cbn [orb]. destruct (mem k (keys o) || mem k ls); reflexivity.
      * destruct (mem k' (keys o)); [reflexivity|].
        rewrite mem_app. cbn [mem existsb].
        destruct (String.eqb_spec k' k); [contradiction|].
        now rewrite !orb_false_r.
Qed.

Lemma sum_values_fold_count (ls : list string) (o : t Z) :
  sum_values (fold_left count_own ls o)
  = sum_values o + Z.of_nat (length ls).
Proof.
  revert o. induction ls as [|k ls IH]; intros o.
  - simpl. lia.
  - cbn [fold_left length]. rewrite IH. unfold count_own.
    rewrite sum_values_define. lia.
Qed.

(** The counting loop leaves no trace of the label [__proto__], and
    writes the own property under every other label. *)
Lemma fold_count_recorded (ls : list string) (o : t Z) :
  get o "__proto__" = None ->
  fold_left count_label ls o = fold_left count_own (recorded ls) o.
Proof.
  revert o. induction ls as [|k ls IH]; intros o Hget; simpl.
  - reflexivity.
  - destruct (String.eqb_spec k "__proto__") as [->|Hne]; simpl.
    + unfold count_label at 2. rewrite set_proto by assumption.
      now apply IH.
    + unfold count_label at 2. rewrite set_define by assumption.
      fold (count_own o k). apply IH.
      unfold count_own. now rewrite get_define_other.
Qed.

Lemma recorded_In (ls : list string) (k : string) :
  In k (recorded ls) <-> In k ls /\ k <> "__proto__".
Proof.
  unfold recorded. rewrite filter_In.
  destruct (String.eqb_spec k "__proto__"); simpl; intuition congruence.
Qed.

Lemma recorded_all (ls : list string) :
  (forall k, In k ls -> k <> "__proto__") -> recorded ls = ls.
Proof.
  induction ls as [|k ls IH]; intros Hall; simpl.
  - reflexivity.
  - destruct (String.eqb_spec k "__proto__") as [Heq|Hne]; simpl.
    + exfalso. now apply (Hall k (or_introl eq_refl)).
    + f_equal. apply IH. intros k' Hk'. apply Hall. now right.
Qed.

Lemma ordinary_label_proto (k : string) :
  ordinary_label k = true -> k <> "__proto__".
Proof. intros Ho ->. discriminate Ho. Qed.

Lemma ordinary_labels_In (ls : list string) (k : string) :
  ordinary_labels ls = true -> In k ls -> ordinary_label k = true.
Proof.
  unfold ordinary_labels. rewrite forallb_forall. auto.
Qed.

Lemma recorded_ordinary (ls : list string) :
  ordinary_labels ls = true -> recorded ls = ls.
Proof.
  intros Ho. apply recorded_all. intros k Hk.
  apply ordinary_label_proto. now apply (ordinary_labels_In ls).
Qed.

Lemma recorded_mem (ls : list string) (k : string) :
  k <> "__proto__" -> mem k (recorded ls) = mem k ls.
Proof.
  intros Hne. unfold mem. induction ls as [|k' ls IH].
  - reflexivity.
  - cbn [recorded filter]. fold (recorded ls).
    destruct (String.eqb_spec k' "__proto__") as [->|Hk'];
      cbn [negb existsb].
    + rewrite IH. destruct (String.eqb_spec "__proto__" k);
        [congruence | reflexivity].
    + now rewrite IH.
Qed.

Lemma recorded_occurrences (ls : list string) (k : string) :
  k <> "__proto__" -> occurrences k (recorded ls) = occurrences k ls.
Proof.
  intros Hne. induction ls as [|k' ls IH].
  - reflexivity.
  - cbn [recorded filter]. fold (recorded ls).
    destruct (String.eqb_spec k' "__proto__") as [->|Hk']; cbn [negb].
    + rewrite (occurrences_cons k "__proto__"), IH.
      destruct (String.eqb_spec "__proto__" k); [congruence | lia].
    + now rewrite !occurrences_cons, IH.
Qed.

Lemma NoDup_first_occurrences_from (seen l : list string) :
  NoDup (first_occurrences_from seen l)
  /\ forall k, In k (first_occurrences_from seen l) ->
               mem k seen = false /\ In k l.
Proof.
  revert seen. induction l as [|k l IH]; intros seen; simpl.
  - split; [constructor | contradiction].
  - destruct (mem k seen) eqn:Hmem.
    + destruct (IH seen) as [Hnd Hin]. split; [exact Hnd|].
      intros k' Hk'. destruct (Hin k' Hk'). auto.
    + destruct (IH (k :: seen)) as [Hnd Hin]. split.
      * constructor; [|exact Hnd]. intros Hk.
        destruct (Hin k Hk) as [Hm _]. simpl in Hm.
        now rewrite String.eqb_refl in Hm.
      * intros k' [<-|Hk']; [auto|].
        destruct (Hin k' Hk') as [Hm Hl]. simpl in Hm.
        apply orb_false_iff in Hm. tauto.
Qed.

Lemma In_get {V : Type} (o : t V) (k : string) (v : V) :
  NoDup (keys o) -> In (k, v) o -> get o k = Some v.
Proof.
  induction o as [|[k' v'] o IH]; simpl; intros Hnd Hin.
  - contradiction.
  - inversion Hnd as [|? ? Hnotin Hnd']; subst.
    destruct Hin as [Heq|Hin].
    + inversion Heq; subst. now rewrite String.eqb_refl.
    + destruct (String.eqb_spec k' k) as [->|Hne].
      * exfalso. apply Hnotin. apply (in_map fst) in Hin. exact Hin.
      * now apply IH.
Qed.

(** The counting object of [generateChartData]: its keys are the distinct
    recorded labels in the order of their first occurrence, and each value
    is the number of occurrences of its key. *)
Lemma estimateCounts_recorded (users : list User.t) :
  estimateCounts users
  = fold_left count_own (recorded (counted_estimates users)) empty.
Proof.
  unfold estimateCounts. rewrite fold_count_vote.
  now apply fold_count_recorded.
Qed.

Lemma estimateCounts_keys (users : list User.t) :
  keys (estimateCounts users)
  = first_occurrences (recorded (counted_estimates users)).
Proof.
  rewrite estimateCounts_recorded, keys_fold_count. reflexivity.
Qed.

Lemma estimateCounts_NoDup (users : list User.t) :
  NoDup (keys (estimateCounts users)).
Proof.
  rewrite estimateCounts_keys. apply NoDup_first_occurrences_from.
Qed.

Lemma estimateCounts_values (users : list User.t) (k : string) (v : Z) :
  In (k, v) (estimateCounts users) ->
  v = occurrences k (recorded (counted_estimates users)).
Proof.
  intros Hin.
  pose proof (In_get _ _ _ (estimateCounts_NoDup users) Hin) as Hget.
  rewrite estimateCounts_recorded, get_fold_count in Hget.
  cbn [keys map mem existsb orb JsObject.empty get or_zero] in Hget.
  destruct (mem k (recorded (counted_estimates users))); [|discriminate].
  inversion Hget. reflexivity.
Qed.

Lemma labels_of_length (users : list User.t) :
  length (labels_of (votingUsers users)) = length (votingUsers users).
Proof.
  unfold votingUsers.
  induction users as [|u users IH]; simpl.
  - reflexivity.
  - destruct (is_voting_user u) eqn:Hv; [|exact IH].
    unfold is_voting_user in Hv. apply andb_prop in Hv as [_ Ht].
    simpl. destruct (User.estimate u); [|discriminate].
    simpl. now rewrite IH.
Qed.

Lemma estimateCounts_total (users : list User.t) :
  sum_values (estimateCounts users)
  = Z.of_nat (length (recorded (counted_estimates users))).
Proof.
  rewrite estimateCounts_recorded, sum_values_fold_count.
  simpl. lia.
Qed.

End CountingFacts.

(* ------------------------------------------------------------------ *)
(** ** Facts about the chart *)

Section ChartFacts.

Context {math : MathLib}.
Import JsObject JsObjectFacts CountingFacts.

Lemma map_entries_label c T es i cum :
  map ChartSegment.label (map_entries c T es i cum)
  = map getEstimateLabel (keys es).
Proof.
  revert i cum. induction es as [|[k n] es IH]; intros i cum; simpl.
  - reflexivity.
  - now rewrite IH.
Qed.

Lemma map_entries_value c T es i cum :
  map ChartSegment.value (map_entries c T es i cum) = map snd es.
Proof.
  revert i cum. induction es as [|[k n] es IH]; intros i cum; simpl.
  - reflexivity.
  - now rewrite IH.
Qed.

Lemma map_entries_percentage c T es i cum :
  map ChartSegment.percentage (map_entries c T es i cum)
  = map (share T) es.
Proof.
  revert i cum. induction es as [|[k n] es IH]; intros i cum; simpl.
  - reflexivity.
  - now rewrite IH.
Qed.

Lemma map_entries_In c T es i cum seg :
  In seg (map_entries c T es i cum) ->
  exists i' cum' k n,
    In (k, n) es /\ seg = chart_segment c T i' cum' k n.
Proof.
  revert i cum. induction es as [|[k n] es IH]; intros i cum; simpl.
  - contradiction.
  - intros [<-|Hin].
    + exists i, cum, k, n. auto.
    + destruct (IH _ _ Hin) as (i' & cum' & k' & n' & Hk & ->).
      exists i', cum', k', n'. auto.
Qed.

End ChartFacts.

(* ------------------------------------------------------------------ *)
(** ** Facts about the order and the paths of the wedges *)

Section OrderFacts.
Import JsObject JsObjectFacts CountingFacts.

Lemma StronglySorted_keys {V : Type} (l : t V) :
  StronglySorted index_le l -> StronglySorted index_order (keys l).
Proof.
  induction 1 as [|x l Hs IH Hall]; simpl.
  - constructor.
  - constructor; [exact IH|].
    apply Forall_map. exact Hall.
Qed.

Lemma entries_keys {V : Type} (o : t V) :
  keys (entries o)
  = (keys (sort_by_index (index_props o))
     ++ filter (fun k => negb (is_index k)) (keys o))%list.
Proof.
  unfold entries, keys. rewrite map_app. f_equal.
  apply (keys_filter (fun k => negb (is_index k))).
Qed.

Lemma index_keys_perm {V : Type} (o : t V) :
  Permutation (keys (sort_by_index (index_props o)))
              (filter is_index (keys o)).
Proof.
  pose proof (keys_filter is_index o) as Hk.
  unfold keys, index_props in *. rewrite <- Hk.
  apply Permutation_map, sort_by_index_perm.
Qed.

Lemma entries_values (users : list User.t) :
  map snd (entries (estimateCounts users))
  = map (fun k => occurrences k (recorded (counted_estimates users)))
        (keys (entries (estimateCounts users))).
Proof.
  assert (H : Forall (fun kv => snd kv
                        = occurrences (fst kv)
                            (recorded (counted_estimates users)))
                     (entries (estimateCounts users))).
  { apply Forall_forall. intros [k v] Hin. simpl.
    apply estimateCounts_values.
    eapply Permutation_in; [apply entries_perm | exact Hin]. }
  induction H as [|kv l Hkv _ IH]; simpl.
  - reflexivity.
  - now rewrite Hkv, IH.
Qed.

Lemma counted_estimates_In (users : list User.t) (k : string) :
  In k (counted_estimates users) <->
  exists u e, In u users
              /\ truthy_flag (User.isAdmin u) = false
              /\ User.hasVoted u = true
              /\ User.estimate u = Some e
              /\ truthy (Some e) = true
              /\ Estimate_toString e = k.
Proof.
  unfold counted_estimates, labels_of. rewrite in_flat_map. split.
  - intros (u & Hu & Hk). apply filter_In in Hu as [Hin Hv].
    unfold is_voting_user in Hv.
    apply andb_prop in Hv as [Hv Ht]. apply andb_prop in Hv as [Ha Hh].
    apply negb_true_iff in Ha.
    destruct (User.estimate u) as [e|] eqn:He; [|contradiction].
    destruct Hk as [<-|[]]. exists u, e. auto 8.
  - intros (u & e & Hin & Ha & Hh & He & Ht & <-). exists u. split.
    + apply filter_In. split; [exact Hin|].
      unfold is_voting_user. now rewrite Ha, Hh, He, Ht.
    + rewrite He. now left.
Qed.

End OrderFacts.

Section PathFacts.

Context {math : MathLib}.
Import JsObject JsObjectFacts CountingFacts.

Lemma Qge_bool_true (p q : Q) : Qge_bool p q = true <-> (q <= p)%Q.
Proof. unfold Qge_bool. apply Qle_bool_iff. Qed.

Lemma Qge_bool_false (p q : Q) : Qge_bool p q = false <-> (p < q)%Q.
Proof.
  unfold Qge_bool. split.
  - intros Hb. apply Qnot_le_lt. intros Hle.
    apply Qle_bool_iff in Hle. congruence.
  - intros Hlt. destruct (Qle_bool q p) eqn:Hb; [|reflexivity].
    apply Qle_bool_iff in Hb. exfalso. exact (Qlt_not_le _ _ Hlt Hb).
Qed.

Lemma Qgt_bool_true (p q : Q) : Qgt_bool p q = true <-> (q < p)%Q.
Proof.
  unfold Qgt_bool. rewrite negb_true_iff. apply (Qge_bool_false q p).
Qed.

Lemma Qgt_bool_false (p q : Q) : Qgt_bool p q = false <-> (p <= q)%Q.
Proof.
  unfold Qgt_bool. rewrite negb_false_iff. apply Qle_bool_iff.
Qed.

(** The path of a wedge, by the size of the wedge. *)
Lemma chart_segment_full c T i cum k n :
  (999 # 10 <= ChartSegment.percentage (chart_segment c T i cum k n))%Q ->
  ChartSegment.pathData (chart_segment c T i cum k n)
  = Some (full_circle_path c).
Proof.
  intros Hge. apply Qge_bool_true in Hge.
  unfold chart_segment in *. cbn [ChartSegment.percentage] in Hge.
  cbn [ChartSegment.pathData]. now rewrite Hge.
Qed.

Lemma chart_segment_wedge c T i cum k n :
  (ChartSegment.percentage (chart_segment c T i cum k n) < 999 # 10)%Q ->
  ChartSegment.pathData (chart_segment c T i cum k n)
  = Some (getSegmentPath c (chart_segment c T i cum k n)).
Proof.
  intros Hlt. apply Qge_bool_false in Hlt.
  unfold chart_segment in *. cbn [ChartSegment.percentage] in Hlt.
  cbn [ChartSegment.pathData]. rewrite Hlt. reflexivity.
Qed.

Lemma first_occurrences_const (k : string) (ls : list string) :
  ls <> [] -> (forall k', In k' ls -> k' = k) ->
  first_occurrences ls = [k] /\ occurrences k ls = Z.of_nat (length ls).
Proof.
  intros Hne Hall. destruct ls as [|k0 ls]; [contradiction|].
  assert (k0 = k) by (apply Hall; now left). subst k0.
  assert (Hall' : forall k', In k' ls -> k' = k)
    by (intros; apply Hall; now right).
  clear Hne Hall. split.
  - unfold first_occurrences. simpl. f_equal.
    induction ls as [|k1 ls IH]; simpl.
    + reflexivity.
    + rewrite (Hall' k1 (or_introl eq_refl)), String.eqb_refl. simpl.
      apply IH. intros; apply Hall'; now right.
  - unfold occurrences. f_equal.
    induction ls as [|k1 ls IH].
    + simpl. now destruct (string_dec k k).
    + assert (IH' : count_occ string_dec (k :: ls) k = length (k :: ls))
        by (apply IH; intros; apply Hall'; now right).
      rewrite (Hall' k1 (or_introl eq_refl)).
      simpl in *. destruct (string_dec k k); [|contradiction]. lia.
Qed.

Lemma entries_single {V : Type} (k : string) (v : V) :
  entries [(k, v)] = [(k, v)].
Proof.
  unfold entries, index_props, string_props. simpl.
  now destruct (is_index k).
Qed.

Lemma generated_single (c : RoomComponent.t) (k : string) :
  k <> "__proto__" ->
  counted_estimates (RoomComponent.users c) <> [] ->
  (forall k', In k' (counted_estimates (RoomComponent.users c)) -> k' = k) ->
  let n := Z.of_nat (length (counted_estimates (RoomComponent.users c))) in
  0 < n /\ generated_segments c = [chart_segment c n 0 0 k n].
Proof.
  intros Hk Hne Hall n.
  assert (Hrec : recorded (counted_estimates (RoomComponent.users c))
                 = counted_estimates (RoomComponent.users c)).
  { apply recorded_all. intros k' Hk'. now rewrite (Hall k' Hk'). }
  destruct (first_occurrences_const k _ Hne Hall) as [Hfo Hocc].
  assert (Hpos : 0 < n).
  { subst n. destruct (counted_estimates (RoomComponent.users c));
      [contradiction | simpl; lia]. }
  split; [exact Hpos|].
  pose proof (estimateCounts_keys (RoomComponent.users c)) as Hkeys.
  rewrite Hrec, Hfo in Hkeys.
  destruct (estimateCounts (RoomComponent.users c)) as [|[k0 v] o] eqn:Ho;
    [discriminate|].
  destruct o; [|discriminate]. simpl in Hkeys.
  inversion Hkeys; subst k0.
  assert (Hv : v = n).
  { subst n. rewrite <- Hocc, <- Hrec. apply estimateCounts_values.
    rewrite Ho. now left. }
  subst v. unfold generated_segments. rewrite Ho, entries_single.
  replace (Z.of_nat (length (votingUsers (RoomComponent.users c))))
    with n by (subst n; f_equal; apply labels_of_length).
  reflexivity.
Qed.

End PathFacts.

(* ------------------------------------------------------------------ *)
(** ** Facts about the socket handlers *)

Section HandlerFacts.

Context {math : MathLib}.

Lemma handle_service_flags (e : InboundEvent) (a : App.t) :
  RoomService.estimationStarted (App.service (exec (handle e) a))
  = started_after e (RoomService.estimationStarted (App.service a))
  /\ RoomService.resultsRevealed (App.service (exec (handle e) a))
     = revealed_after e (RoomService.resultsRevealed (App.service a)).
Proof.
  destruct a as [s c st]. destruct s, c.
  destruct e; run_methods; auto.
Qed.

Lemma handle_component_flags (e : InboundEvent) (a : App.t) :
  RoomComponent.estimationStarted (App.component (exec (handle e) a))
  = started_after e (RoomComponent.estimationStarted (App.component a))
  /\ RoomComponent.resultsRevealed (App.component (exec (handle e) a))
     = revealed_after e (RoomComponent.resultsRevealed (App.component a)).
Proof.
  destruct a as [s c st]. destruct s, c.
  destruct e; run_methods; auto.
Qed.

End HandlerFacts.

Section VoteFacts.

Lemma Estimate_eqb_eq (x y : Estimate) : Estimate_eqb x y = true <-> x = y.
Proof.
  destruct x as [m|s], y as [n|t]; simpl.
  - rewrite Z.eqb_eq. split; congruence.
  - split; discriminate.
  - split; discriminate.
  - rewrite String.eqb_eq. split; congruence.
Qed.

Lemma strict_eq_true (sel : option Estimate) (point : Estimate) :
  strict_eq sel point = true <-> sel = Some point.
Proof.
  destruct sel as [e|]; simpl.
  - rewrite Estimate_eqb_eq. split; congruence.
  - split; discriminate.
Qed.

Lemma strict_eq_false (sel : option Estimate) (point : Estimate) :
  strict_eq sel point = false <-> sel <> Some point.
Proof.
  rewrite <- strict_eq_true. now destruct (strict_eq sel point).
Qed.

Lemma getItem_removeItem (st : Storage.t) (k : string) :
  Storage.getItem (Storage.removeItem st k) k = None.
Proof.
  unfold Storage.removeItem.
  induction st as [|[k' v] st IH]; simpl.
  - reflexivity.
  - destruct (k' =? k)%string eqn:E; simpl.
    + exact IH.
    + now rewrite E.
Qed.

Lemma getItem_removeItem_other (st : Storage.t) (k k0 : string) :
  k <> k0 ->
  Storage.getItem (Storage.removeItem st k) k0 = Storage.getItem st k0.
Proof.
  intros Hne. unfold Storage.removeItem.
  induction st as [|[k' v] st IH]; simpl.
  - reflexivity.
  - destruct (String.eqb_spec k' k) as [->|Hk]; simpl.
    + destruct (String.eqb_spec k k0); [contradiction | exact IH].
    + now rewrite IH.
Qed.

End VoteFacts.

(* ------------------------------------------------------------------ *)
(** ** The properties of the specification, claim by claim *)

(** C1, at a label that the counting object inherits.  Two participants
    who are not admins have voted the text [__proto__] and the results are
    revealed.  [updateChartData] runs [generateChartData], which counts two
    votes; the assignments under [__proto__] create no property, so the
    counting object stays empty, the chart has no wedge and the percentages
    sum to 0 instead of 100.  When one participant voted 5 and another
    [__proto__], the only wedge is the one of 5, with 1 vote out of 2: the
    percentages sum to 50. *)
Theorem C1_inherited_label_breaks_the_sum {math : MathLib} :
  let a := app_of (revealed_component users_proto) in
  let c' := App.component (exec updateChartData a) in
  let b := app_of (revealed_component users_5_proto) in
  let d' := App.component (exec updateChartData b) in
  RoomComponent.resultsRevealed (App.component a) = true
  /\ (exists u, In u (RoomComponent.users (App.component a))
                /\ truthy_flag (User.isAdmin u) = false
                /\ User.hasVoted u = true
                /\ truthy (User.estimate u) = true)
  /\ length (votingUsers users_proto) = 2%nat
  /\ estimateCounts users_proto = JsObject.empty
  /\ RoomComponent.chartSegments c' = []
  /\ ~ (Qsum (map ChartSegment.percentage (RoomComponent.chartSegments c'))
        == 100)%Q
  /\ map ChartSegment.label (RoomComponent.chartSegments d') = ["5"]
  /\ map ChartSegment.value (RoomComponent.chartSegments d') = [1]
  /\ (Qsum (map ChartSegment.percentage (RoomComponent.chartSegments d'))
      == 50)%Q
  /\ ~ (Qsum (map ChartSegment.percentage (RoomComponent.chartSegments d'))
        == 100)%Q.
Proof.
  cbv zeta.
  split; [reflexivity|].
  split; [exists (voter "ann" (EString "__proto__")); simpl; auto|].
  split; [reflexivity|]. split; [reflexivity|]. split; [reflexivity|].
  split; [discriminate|].
  split; [reflexivity|]. split; [reflexivity|].
  split; [reflexivity | discriminate].
Qed.

(** C2, as the specification has it, fails on the ordinary course of a
    round: after [estimation-started] and then [votes-revealed] both flags
    are true, and a [votes-revealed] that reaches a fresh service leaves the
    revealed flag true and the in-progress flag false. *)
Lemma C2_phase_invariant_counterexample :
  let after_reveal :=
    App.service
      (exec (handle_all (math := rationalMath)
               [Estimation_started users_5_5_8 None;
                Votes_revealed true users_5_5_8 None])
            (App_initial "room")) in
  let reveal_only :=
    App.service
      (exec (handle_all (math := rationalMath)
               [Votes_revealed true users_5_5_8 None])
            (App_initial "room")) in
  ~ phase_invariant (RoomService.estimationStarted after_reveal)
                    (RoomService.resultsRevealed after_reveal)
  /\ ~ phase_invariant (RoomService.estimationStarted reveal_only)
                       (RoomService.resultsRevealed reveal_only).
Proof.
  split.
  - intros [H _]. specialize (H eq_refl). discriminate H.
  - intros [_ H]. specialize (H eq_refl). discriminate H.
Qed.

(** C2, as the code has it.  In every state, hence in every reachable one,
    an event changes the two phase flags of the service, and their copies in
    the component, as follows: [estimation-started] sets the in-progress flag
    and clears the revealed flag; [voting-reset] clears both; [room-state]
    and [votes-revealed] replace the revealed flag by the one of the payload
    and leave the in-progress flag as it is; the other events change neither.
    So the in-progress flag is raised only by [estimation-started], it is
    lowered only by [voting-reset], and right after either of these two
    events the invariant of the specification holds. *)
Theorem C2_phase_flags_by_event {math : MathLib}
    (e : InboundEvent) (a : App.t) :
  let s := App.service a in
  let s' := App.service (exec (handle e) a) in
  let c := App.component a in
  let c' := App.component (exec (handle e) a) in
  RoomService.estimationStarted s'
  = match e with
    | Voting_reset _ _ => false
    | Estimation_started _ _ => true
    | _ => RoomService.estimationStarted s
    end
  /\ RoomService.resultsRevealed s'
     = match e with
       | Room_state room _ _ => Room.votingRevealed room
       | Votes_revealed revealed _ _ => revealed
       | Voting_reset _ _ => false
       | Estimation_started _ _ => false
       | _ => RoomService.resultsRevealed s
       end
  /\ RoomComponent.estimationStarted c'
     = started_after e (RoomComponent.estimationStarted c)
  /\ RoomComponent.resultsRevealed c'
     = revealed_after e (RoomComponent.resultsRevealed c)
  /\ (RoomService.estimationStarted s = false ->
      RoomService.estimationStarted s' = true ->
      exists users results, e = Estimation_started users results)
  /\ (RoomService.estimationStarted s = true ->
      RoomService.estimationStarted s' = false ->
      exists users results, e = Voting_reset users results)
  /\ ((exists users results,
         e = Estimation_started users results
         \/ e = Voting_reset users results) ->
      phase_invariant (RoomService.estimationStarted s')
                      (RoomService.resultsRevealed s')).
Proof.
  intros s s' c c'.
  destruct (handle_service_flags e a) as [Hs Hr].
  destruct (handle_component_flags e a) as [Hcs Hcr].
  fold s s' in Hs, Hr. fold c c' in Hcs, Hcr.
  split; [exact Hs|]. split; [exact Hr|].
  split; [exact Hcs|]. split; [exact Hcr|].
  split; [|split].
  - intros H0 H1. rewrite Hs in H1.
    destruct e; simpl in H1; try congruence. eauto.
  - intros H0 H1. rewrite Hs in H1.
    destruct e; simpl in H1; try congruence. eauto.
  - intros (users & results & [-> | ->]); rewrite Hs, Hr; simpl;
      split; congruence.
Qed.

Lemma C2_phase_flags_by_event_witness :
  let a := App_initial "room" in
  let e := Estimation_started users_5_5_8 None in
  RoomService.estimationStarted (App.service a) = false
  /\ RoomService.estimationStarted
       (App.service (exec (handle (math := rationalMath) e) a)) = true
  /\ (exists users results, e = Estimation_started users results)
  /\ phase_invariant
       (RoomService.estimationStarted
          (App.service (exec (handle (math := rationalMath) e) a)))
       (RoomService.resultsRevealed
          (App.service (exec (handle (math := rationalMath) e) a))).
Proof.
  intros a e.
  pose proof (C2_phase_flags_by_event (math := rationalMath) e a)
    as (_ & _ & _ & _ & Hup & _ & Hinv).
  split; [reflexivity|]. split; [reflexivity|]. split.
  - apply Hup; reflexivity.
  - apply Hinv. exists users_5_5_8, None. now left.
Defined.

(** C3, as the specification has it, fails: a vote for 8 followed by a vote
    for 5 gives the wedges 5, 8 (numeric order), not 8, 5 (the order of first
    occurrence). *)
Lemma C3_first_occurrence_order_counterexample :
  first_occurrences (counted_estimates users_8_5) = ["8"; "5"]
  /\ map ChartSegment.label
       (generated_segments (math := rationalMath)
          (revealed_component users_8_5)) = ["5"; "8"]
  /\ map ChartSegment.label
       (generated_segments (math := rationalMath)
          (revealed_component users_8_5))
     <> map getEstimateLabel (first_occurrences (counted_estimates users_8_5)).
Proof.
  repeat split; try reflexivity.
  vm_compute. discriminate.
Qed.

(** C3, as the code has it.  [generateChartData] counts the labels of the
    participants who are not admins and voted with an estimate that is
    present, not empty and not the number 0.  When none of these labels is
    the name of a member of [Object.prototype], there is one wedge per
    distinct label, carrying the number of its occurrences and that number
    as a percentage of the counted votes, and the wedges come in the order
    of [Object.entries]: first the labels that are array indices (such as
    the story points 1, 3, 5, 8, 13), in ascending numeric order, then the
    other labels, in the order of their first occurrence in the participant
    list.  Three voters with 5, 5 and 8 give the distribution 5 -> 2,
    8 -> 1, the percentages 200/3 and 100/3 (66.67 and 33.33 to two
    decimals) and the offsets 0 and 200/3 (66.67 to two decimals). *)
Theorem C3_wedges_in_property_order {math : MathLib} (c : RoomComponent.t) :
  let ls := counted_estimates (RoomComponent.users c) in
  let ks := first_occurrences ls in
  let total := Z.of_nat (length ls) in
  (forall k, In k ls <->
     exists u e, In u (RoomComponent.users c)
                 /\ truthy_flag (User.isAdmin u) = false
                 /\ User.hasVoted u = true
                 /\ User.estimate u = Some e
                 /\ truthy (Some e) = true
                 /\ Estimate_toString e = k)
  /\ (ordinary_labels ls = true ->
      exists indices,
        Permutation indices (filter JsObject.is_index ks)
        /\ StronglySorted index_order indices
        /\ let order :=
             (indices ++ filter (fun k => negb (JsObject.is_index k)) ks)%list
           in
           map ChartSegment.label (generated_segments c)
           = map getEstimateLabel order
           /\ map ChartSegment.value (generated_segments c)
              = map (fun k => occurrences k ls) order
           /\ map ChartSegment.percentage (generated_segments c)
              = map (fun k =>
                       (inject_Z (occurrences k ls) / inject_Z total * 100)%Q)
                    order)
  /\ (let c558 := RoomComponent.set_users c users_5_5_8 in
      JsObject.entries (estimateCounts users_5_5_8) = [("5", 2); ("8", 1)]
      /\ map ChartSegment.label (generated_segments c558) = ["5"; "8"]
      /\ Forall2 Qeq (map ChartSegment.percentage (generated_segments c558))
                 [200 # 3; 100 # 3]%Q
      /\ Forall2 (fun p r => r - (1 # 200) <= p /\ p <= r + (1 # 200))%Q
                 (map ChartSegment.percentage (generated_segments c558))
                 [6667 # 100; 3333 # 100]%Q
      /\ Forall2 Qeq (map ChartSegment.offset (generated_segments c558))
                 [0; 200 # 3]%Q
      /\ Forall2 (fun p r => r - (1 # 200) <= p /\ p <= r + (1 # 200))%Q
                 (map ChartSegment.offset (generated_segments c558))
                 [0; 6667 # 100]%Q).
Proof.
  intros ls ks total. split; [|split].
  - intros k. apply counted_estimates_In.
  - intros Hord.
    assert (Hrec : recorded ls = ls)
      by now apply CountingFacts.recorded_ordinary.
    exists (JsObject.keys
              (JsObject.sort_by_index
                 (JsObject.index_props
                    (estimateCounts (RoomComponent.users c))))).
    assert (Hkeys : JsObject.keys (estimateCounts (RoomComponent.users c))
                    = ks).
    { rewrite CountingFacts.estimateCounts_keys. fold ls.
      now rewrite Hrec. }
    assert (Horder :
      JsObject.keys
        (JsObject.entries (estimateCounts (RoomComponent.users c)))
      = (JsObject.keys
           (JsObject.sort_by_index
              (JsObject.index_props
                 (estimateCounts (RoomComponent.users c))))
         ++ filter (fun k => negb (JsObject.is_index k)) ks)%list).
    { rewrite entries_keys. f_equal. now rewrite Hkeys. }
    split; [|split].
    + rewrite <- Hkeys. apply index_keys_perm.
    + apply StronglySorted_keys, JsObjectFacts.sort_by_index_sorted.
    + cbv zeta. rewrite <- Horder. unfold generated_segments.
      split; [apply map_entries_label|]. split.
      * rewrite map_entries_value, entries_values. fold ls.
        now rewrite Hrec.
      * rewrite map_entries_percentage.
        replace total
          with (Z.of_nat (length (votingUsers (RoomComponent.users c)))).
        -- unfold share.
           rewrite <- (map_map snd (fun n => (inject_Z n / _ * 100)%Q)).
           rewrite entries_values. fold ls. rewrite Hrec.
           now rewrite map_map.
        -- subst total ls. f_equal. symmetry.
           apply CountingFacts.labels_of_length.
  - cbv zeta. split; [reflexivity|].
    unfold generated_segments.
    replace (RoomComponent.users (RoomComponent.set_users c users_5_5_8))
      with users_5_5_8 by reflexivity.
    replace (JsObject.entries (estimateCounts users_5_5_8))
      with [("5", 2); ("8", 1)] by reflexivity.
    replace (Z.of_nat (length (votingUsers users_5_5_8))) with 3
      by reflexivity.
    cbn [map_entries map chart_segment ChartSegment.label
         ChartSegment.percentage ChartSegment.offset].
    repeat split.
    + repeat constructor; reflexivity.
    + repeat constructor; unfold Qle; simpl; lia.
    + repeat constructor; reflexivity.
    + repeat constructor; unfold Qle; simpl; lia.
Qed.

Lemma C3_wedges_in_property_order_witness :
  let c := revealed_component users_split_8_5 in
  ordinary_labels (counted_estimates (RoomComponent.users c)) = true
  /\ exists indices,
       Permutation indices ["8"; "5"]
       /\ StronglySorted index_order indices
       /\ map ChartSegment.label (generated_segments (math := rationalMath) c)
          = map getEstimateLabel (indices ++ ["split"])%list.
Proof.
  intros c.
  assert (Hord : ordinary_labels (counted_estimates (RoomComponent.users c))
                 = true) by reflexivity.
  split; [exact Hord|].
  destruct (proj1 (proj2 (C3_wedges_in_property_order
                            (math := rationalMath) c)) Hord)
    as (indices & Hperm & Hsorted & Hlabels & _).
  exists indices. split; [exact Hperm|]. split; [exact Hsorted|].
  exact Hlabels.
Defined.



(** C5. When estimation has not started, [selectEstimate] changes nothing
    (selected estimate, current user, every other field of the component,
    the service and the local storage) and sends nothing. *)
Theorem C5_selectEstimate_before_start (a : App.t) (v : Estimate) :
  RoomComponent.estimationStarted (App.component a) = false ->
  selectEstimate v a = (tt, a, []).
Proof.
  intros Hstarted. unfold selectEstimate, bind, this.
  cbn [App.component]. rewrite Hstarted. reflexivity.
Qed.

Lemma C5_selectEstimate_before_start_witness :
  RoomComponent.estimationStarted (App.component (App_initial "room")) = false
  /\ selectEstimate (ENumber 5) (App_initial "room")
     = (tt, App_initial "room", []).
Proof.
  split; [reflexivity|].
  apply (C5_selectEstimate_before_start (App_initial "room") (ENumber 5)).
  reflexivity.
Defined.

(** C6, as the specification has it, fails: a [votes-revealed] event whose
    payload says [revealed: false] leaves the selected card selected. *)
Lemma C6_reveal_clears_selection_counterexample :
  RoomComponent.selectedEstimate
    (App.component
       (exec (handle (math := rationalMath)
                (Votes_revealed false users_5_5_8 None))
             (app_of (voting_component (Some (ENumber 5))))))
  = Some (ENumber 5)
  /\ RoomComponent.selectedEstimate
       (App.component
          (exec (handle (math := rationalMath)
                   (Votes_revealed false users_5_5_8 None))
                (app_of (voting_component (Some (ENumber 5))))))
     <> None.
Proof.
  split; [reflexivity | discriminate].
Qed.

(** C6, as the code has it.  After a [votes-revealed] event the selected
    estimate is null when the payload says [revealed: true], and is what it
    was when the payload says [revealed: false]; the celebration is shown in
    the first case only. *)
Theorem C6_reveal_clears_selection_when_revealed {math : MathLib}
    (a : App.t) (revealed : bool) (votes : list User.t)
    (summary : option Summary.t) :
  let e := Votes_revealed revealed votes summary in
  RoomComponent.selectedEstimate (App.component (exec (handle e) a))
  = (if revealed then None
     else RoomComponent.selectedEstimate (App.component a))
  /\ RoomComponent.resultsRevealed (App.component (exec (handle e) a))
     = revealed
  /\ (In ShowConfetti (log_of (handle e) a) <-> revealed = true).
Proof.
  destruct a as [s c st]. destruct s, c. destruct revealed.
  - run_methods; (split; [reflexivity|]; split; [reflexivity|]);
      (split; [reflexivity | intros _; simpl; tauto]).
  - run_methods; (split; [reflexivity|]; split; [reflexivity|]);
      (split; [|discriminate]); simpl; intuition discriminate.
Qed.

(** C7, at a label that the counting object inherits.  Two participants
    who are not admins have voted, both the text [__proto__]: one estimate
    holds all the counted votes.  [generateChartData] makes no wedge, where
    the claim has exactly one wedge, with the full-circle path. *)
Theorem C7_inherited_label_has_no_wedge {math : MathLib} :
  let c := revealed_component users_proto in
  counted_estimates (RoomComponent.users c) = ["__proto__"; "__proto__"]
  /\ (forall k, In k (counted_estimates (RoomComponent.users c)) ->
                k = "__proto__")
  /\ generated_segments c = []
  /\ ~ (exists seg,
          generated_segments c = [seg]
          /\ ChartSegment.pathData seg = Some (full_circle_path c)).
Proof.
  cbv zeta. split; [reflexivity|]. split.
  - intros k [<-|[<-|[]]]; reflexivity.
  - split; [reflexivity|]. intros (seg & Hseg & _). discriminate Hseg.
Qed.

(** C8. When the current user confirms the dialog of [closeRoom], the leave
    request is sent, and whether it is answered by a response or fails, the
    identity kept for the room is removed from the local storage (the other
    keys stay) and the router is sent to the home page; after a failure a
    warning is shown as well, after the navigation, and the exit has already
    taken place.  This holds for the two callbacks in whatever state the
    answer finds the application, and for the run as a whole; the component
    and the service are left as they were. *)
Theorem C8_closeRoom_exits_either_way
    (a : App.t) (u : User.t) (outcome : HttpOutcome) :
  let c := App.component a in
  let key := user_key (RoomComponent.roomId c) in
  let a' := exec (closeRoom_run true outcome) a in
  let warning :=
    match outcome with
    | Http_next _ _ => []
    | Http_error => [Swal_fire "warning" "Warning"]
    end in
  RoomComponent.currentUser c = Some u ->
  closeRoom_then true a
  = (true, a,
     [Http_delete (RoomService.baseUrl ++ "/rooms/"
                   ++ RoomComponent.roomId c ++ "/users/" ++ User.id u)])
  /\ (forall b : App.t,
        let k := user_key (RoomComponent.roomId (App.component b)) in
        closeRoom_next b
        = (tt, App.set_localStorage b
                 (Storage.removeItem (App.localStorage b) k),
           [Router_navigate ["/"]])
        /\ closeRoom_error b
           = (tt, App.set_localStorage b
                    (Storage.removeItem (App.localStorage b) k),
              [Router_navigate ["/"]; Swal_fire "warning" "Warning"]))
  /\ Storage.getItem (App.localStorage a') key = None
  /\ (forall k, k <> key ->
        Storage.getItem (App.localStorage a') k
        = Storage.getItem (App.localStorage a) k)
  /\ App.component a' = c
  /\ App.service a' = App.service a
  /\ log_of (closeRoom_run true outcome) a
     = ([Swal_fire "warning" "Close Room?";
         Http_delete (RoomService.baseUrl ++ "/rooms/"
                      ++ RoomComponent.roomId c ++ "/users/" ++ User.id u);
         Router_navigate ["/"]]
        ++ warning)%list.
Proof.
  intros c key a' warning Huser. subst a' key c warning.
  destruct a as [s c st]. cbn [App.component] in *.
  split; [|split].
  - unfold closeRoom_then, leaveRoom, bind, ret, tell, this.
    cbn [App.component]. now rewrite Huser.
  - intros [s0 c0 st0]. split; reflexivity.
  - unfold exec, log_of, closeRoom_run, closeRoom, closeRoom_then, leaveRoom,
      closeRoom_next, closeRoom_error, storage_update, bind, ret, tell, this.
    cbn [App.component]. rewrite Huser.
    destruct outcome; cbn; repeat split;
      try apply getItem_removeItem;
      intros k Hk; apply getItem_removeItem_other; congruence.
Qed.

Lemma C8_closeRoom_exits_either_way_witness :
  let u := User.mk "u1" "ann" None false (Some false) None in
  RoomComponent.currentUser (App.component stored_session) = Some u
  /\ Storage.getItem
       (App.localStorage (exec (closeRoom_run true Http_error) stored_session))
       (user_key "room") = None
  /\ In (Router_navigate ["/"])
        (log_of (closeRoom_run true Http_error) stored_session)
  /\ In (Swal_fire "warning" "Warning")
        (log_of (closeRoom_run true Http_error) stored_session).
Proof.
  intros u.
  destruct (C8_closeRoom_exits_either_way stored_session u Http_error eq_refl)
    as (_ & _ & Hgone & _ & _ & _ & Hlog).
  split; [reflexivity|]. split; [exact Hgone|].
  rewrite Hlog. simpl. tauto.
Defined.

(** C9. A [story-updated] event replaces the story of the room held by the
    service and leaves every other field of the room as it was (when the
    service holds no room, nothing changes); the participant list, the
    voting results and both phase flags of the service are unchanged, and
    so are the participant list, the wedges and both phase flags of the
    component and the local storage; nothing is sent. *)
Theorem C9_story_updated_frame {math : MathLib}
    (a : App.t) (story : Story.t) (room : Room.t) :
  let a' := exec (handle (Story_updated story room)) a in
  let s := App.service a in
  let s' := App.service a' in
  let c := App.component a in
  let c' := App.component a' in
  RoomService.room s'
  = match RoomService.room s with
    | Some r =>
        Some (Room.mk (Room.id r) (Room.name r) (Room.userCount r)
                (Room.adminName r) story (Room.votingRevealed r)
                (Room.estimationStarted r) (Room.createdAt r)
                (Room.lastActivity r))
    | None => None
    end
  /\ RoomService.users s' = RoomService.users s
  /\ RoomService.votingResults s' = RoomService.votingResults s
  /\ RoomService.estimationStarted s' = RoomService.estimationStarted s
  /\ RoomService.resultsRevealed s' = RoomService.resultsRevealed s
  /\ RoomComponent.room c'
     = match RoomService.room s with
       | Some _ => RoomService.room s'
       | None => RoomComponent.room c
       end
  /\ RoomComponent.users c' = RoomComponent.users c
  /\ RoomComponent.chartSegments c' = RoomComponent.chartSegments c
  /\ RoomComponent.estimationStarted c' = RoomComponent.estimationStarted c
  /\ RoomComponent.resultsRevealed c' = RoomComponent.resultsRevealed c
  /\ RoomComponent.selectedEstimate c' = RoomComponent.selectedEstimate c
  /\ RoomComponent.currentUser c' = RoomComponent.currentUser c
  /\ App.localStorage a' = App.localStorage a
  /\ log_of (handle (Story_updated story room)) a = [].
Proof.
  destruct a as [s c st]. destruct s as [us [r|] vr es rr], c;
    unfold_methods; cbn; repeat split.
Qed.

(** C10. For every wedge written by [generateChartData] whose percentage is
    below 99.9, [getSegmentPath] returns the path stored in the wedge. *)
Theorem C10_getSegmentPath_agrees {math : MathLib}
    (c : RoomComponent.t) (seg : ChartSegment.t) :
  In seg (generated_segments c) ->
  (ChartSegment.percentage seg < 999 # 10)%Q ->
  ChartSegment.pathData seg = Some (getSegmentPath c seg).
Proof.
  intros Hin Hlt. unfold generated_segments in Hin.
  apply map_entries_In in Hin as (i & cum & k & n & _ & ->).
  now apply chart_segment_wedge.
Qed.

Lemma C10_getSegmentPath_agrees_witness :
  In (segment_5_of_5_5_8 (math := rationalMath))
     (generated_segments (math := rationalMath)
        (revealed_component users_5_5_8))
  /\ (ChartSegment.percentage (segment_5_of_5_5_8 (math := rationalMath))
      < 999 # 10)%Q
  /\ ChartSegment.pathData (segment_5_of_5_5_8 (math := rationalMath))
     = Some (getSegmentPath (math := rationalMath)
               (revealed_component users_5_5_8)
               (segment_5_of_5_5_8 (math := rationalMath))).
Proof.
  assert (Hin : In (segment_5_of_5_5_8 (math := rationalMath))
                   (generated_segments (math := rationalMath)
                      (revealed_component users_5_5_8)))
    by (left; reflexivity).
  assert (Hlt : (ChartSegment.percentage
                   (segment_5_of_5_5_8 (math := rationalMath)) < 999 # 10)%Q)
    by reflexivity.
  split; [exact Hin|]. split; [exact Hlt|].
  exact (C10_getSegmentPath_agrees (math := rationalMath) _ _ Hin Hlt).
Defined.

(* ------------------------------------------------------------------ *)
(** ** Further facts about the chart *)

Section LayoutFacts.

Context {math : MathLib}.
Import JsObject JsObjectFacts CountingFacts.

Lemma map_entries_offset c T es i cum pre seg post :
  map_entries c T es i cum = (pre ++ seg :: post)%list ->
  (ChartSegment.offset seg == cum + Qsum (map ChartSegment.percentage pre))%Q
  /\ ChartSegment.color seg
     = nth ((i + length pre) mod length colors)%nat colors "".
Proof.
  revert i cum pre. induction es as [|[k n] es IH]; intros i cum pre Heq.
  - destruct pre; discriminate.
  - destruct pre as [|p pre]; simpl in Heq; inversion Heq; subst.
    + simpl. split; [ring | now rewrite Nat.add_0_r].
    + match goal with H : map_entries _ _ _ _ _ = _ |- _ =>
        destruct (IH _ _ _ H) as [Hoff Hcol] end.
      split.
      * rewrite Hoff. simpl. ring.
      * rewrite Hcol. simpl length. f_equal. f_equal. lia.
Qed.

Lemma map_entries_length c T es i cum :
  length (map_entries c T es i cum) = length es.
Proof.
  revert i cum. induction es as [|[k n] es IH]; intros i cum; simpl.
  - reflexivity.
  - now rewrite IH.
Qed.

Lemma map_entries_ext c1 c2 T es i cum :
  RoomComponent.chartRadius c1 = RoomComponent.chartRadius c2 ->
  RoomComponent.chartCenterX c1 = RoomComponent.chartCenterX c2 ->
  RoomComponent.chartCenterY c1 = RoomComponent.chartCenterY c2 ->
  map_entries c1 T es i cum = map_entries c2 T es i cum.
Proof.
  intros Hr Hx Hy.
  assert (Hseg : forall j q k n,
            chart_segment c1 T j q k n = chart_segment c2 T j q k n).
  { intros. unfold chart_segment. now rewrite Hr, Hx, Hy. }
  revert i cum.
  induction es as [|[k n] es IH]; intros i cum; simpl.
  - reflexivity.
  - rewrite Hseg. f_equal. apply IH.
Qed.

Lemma generated_segments_ext c1 c2 :
  RoomComponent.users c1 = RoomComponent.users c2 ->
  RoomComponent.chartRadius c1 = RoomComponent.chartRadius c2 ->
  RoomComponent.chartCenterX c1 = RoomComponent.chartCenterX c2 ->
  RoomComponent.chartCenterY c1 = RoomComponent.chartCenterY c2 ->
  generated_segments c1 = generated_segments c2.
Proof.
  intros Hu Hr Hx Hy. unfold generated_segments. rewrite Hu.
  now apply map_entries_ext.
Qed.

Lemma estimateCounts_labels (users : list User.t) :
  estimateCounts users
  = fold_left count_label (counted_estimates users) JsObject.empty.
Proof. unfold estimateCounts. apply fold_count_vote. Qed.

Lemma estimateCounts_get (users : list User.t) (k : string) :
  get (estimateCounts users) k
  = if mem k (recorded (counted_estimates users))
    then Some (occurrences k (recorded (counted_estimates users)))
    else None.
Proof.
  rewrite estimateCounts_recorded, get_fold_count. reflexivity.
Qed.

Lemma get_In {V : Type} (o : t V) (k : string) (v : V) :
  get o k = Some v -> In (k, v) o.
Proof.
  induction o as [|[k' v'] o IH]; simpl.
  - discriminate.
  - destruct (String.eqb_spec k' k) as [->|Hne].
    + intros H. inversion H. now left.
    + intros H. right. now apply IH.
Qed.

Lemma estimateCounts_In (users : list User.t) (k : string) (v : Z) :
  In (k, v) (estimateCounts users) <->
  In k (recorded (counted_estimates users))
  /\ v = occurrences k (recorded (counted_estimates users)).
Proof.
  split.
  - intros Hin. split; [|now apply estimateCounts_values].
    pose proof (In_get _ _ _ (estimateCounts_NoDup users) Hin) as Hget.
    rewrite estimateCounts_get in Hget.
    destruct (mem k (recorded (counted_estimates users))) eqn:Hm;
      [|discriminate].
    now apply mem_In.
  - intros [Hin ->]. apply get_In. rewrite estimateCounts_get.
    apply mem_In in Hin. now rewrite Hin.
Qed.

Lemma occurrences_pos (k : string) (ls : list string) :
  In k ls -> 1 <= occurrences k ls <= Z.of_nat (length ls).
Proof.
  intros Hin. unfold occurrences.
  pose proof (proj1 (count_occ_In string_dec ls k) Hin).
  pose proof (count_occ_bound string_dec k ls). lia.
Qed.

Lemma estimateCounts_nil (users : list User.t) :
  estimateCounts users = [] <-> recorded (counted_estimates users) = [].
Proof.
  split.
  - intros Ho. pose proof (estimateCounts_total users) as Ht.
    rewrite Ho in Ht. simpl in Ht.
    destruct (recorded (counted_estimates users));
      [reflexivity | simpl in Ht; lia].
  - intros Hv. now rewrite estimateCounts_recorded, Hv.
Qed.

Lemma entries_length {V : Type} (o : t V) : length (entries o) = length o.
Proof. apply Permutation_length, entries_perm. Qed.

Lemma generated_nil (c : RoomComponent.t) :
  generated_segments c = [] <->
  recorded (counted_estimates (RoomComponent.users c)) = [].
Proof.
  rewrite <- estimateCounts_nil. unfold generated_segments. split.
  - intros Hg. apply (f_equal (@length _)) in Hg.
    rewrite map_entries_length, entries_length in Hg.
    now destruct (estimateCounts (RoomComponent.users c)).
  - intros Ho. rewrite Ho. reflexivity.
Qed.

Lemma generated_nil_voting (c : RoomComponent.t) :
  votingUsers (RoomComponent.users c) = [] -> generated_segments c = [].
Proof.
  intros Hv. apply generated_nil. unfold counted_estimates.
  now rewrite Hv.
Qed.

Lemma generated_nil_ordinary (c : RoomComponent.t) :
  ordinary_labels (counted_estimates (RoomComponent.users c)) = true ->
  generated_segments c = [] -> votingUsers (RoomComponent.users c) = [].
Proof.
  intros Hord Hg. apply generated_nil in Hg.
  rewrite (recorded_ordinary _ Hord) in Hg.
  apply (f_equal (@length _)) in Hg. unfold counted_estimates in Hg.
  rewrite labels_of_length in Hg.
  now destruct (votingUsers (RoomComponent.users c)).
Qed.

Lemma Qsum_nonneg (l : list Q) :
  Forall (fun q => 0 <= q)%Q l -> (0 <= Qsum l)%Q.
Proof.
  induction 1 as [|q l Hq _ IH]; simpl.
  - apply Qle_refl.
  - replace 0%Q with (0 + 0)%Q by reflexivity. now apply Qplus_le_compat.
Qed.

Lemma share_bounds (T n : Z) :
  1 <= n <= T -> (0 < share T ("", n) /\ share T ("", n) <= 100)%Q.
Proof.
  intros [Hn HT]. unfold share. simpl snd.
  assert (HTpos : (0 < inject_Z T)%Q).
  { unfold Qlt. cbn [Qnum Qden inject_Z]. lia. }
  split.
  - apply Qmult_lt_0_compat; [|reflexivity].
    apply Qlt_shift_div_l; [exact HTpos|].
    rewrite Qmult_0_l. unfold Qlt. cbn [Qnum Qden inject_Z]. lia.
  - setoid_replace 100%Q with (1 * 100)%Q at 2 by ring.
    apply Qmult_le_compat_r; [|discriminate].
    apply Qle_shift_div_r; [exact HTpos|].
    rewrite Qmult_1_l. unfold Qle. cbn [Qnum Qden inject_Z]. lia.
Qed.

Lemma generated_segment_bounds (c : RoomComponent.t) (seg : ChartSegment.t) :
  ordinary_labels (counted_estimates (RoomComponent.users c)) = true ->
  In seg (generated_segments c) ->
  1 <= ChartSegment.value seg
       <= Z.of_nat (length (votingUsers (RoomComponent.users c)))
  /\ (0 < ChartSegment.percentage seg /\ ChartSegment.percentage seg <= 100)%Q
  /\ (ChartSegment.percentage seg
      == inject_Z (ChartSegment.value seg)
         / inject_Z (Z.of_nat (length (votingUsers (RoomComponent.users c))))
         * 100)%Q.
Proof.
  intros Hord Hin. unfold generated_segments in Hin.
  apply map_entries_In in Hin as (i & cum & k & n & Hkn & ->).
  assert (Hkn' : In (k, n) (estimateCounts (RoomComponent.users c)))
    by (eapply Permutation_in; [apply entries_perm | exact Hkn]).
  apply estimateCounts_In in Hkn' as [Hk ->].
  rewrite (recorded_ordinary _ Hord) in *.
  pose proof (occurrences_pos k _ Hk) as Hocc.
  replace (length (counted_estimates (RoomComponent.users c)))
    with (length (votingUsers (RoomComponent.users c))) in Hocc
    by (symmetry; apply labels_of_length).
  split; [exact Hocc|]. split.
  - apply (share_bounds _ _ Hocc).
  - reflexivity.
Qed.

End LayoutFacts.

(* ------------------------------------------------------------------ *)
(** ** Further properties of the code *)

Lemma map_entries_adjacent {math : MathLib} c T es i cum pre s1 s2 post :
  map_entries c T es i cum = (pre ++ s1 :: s2 :: post)%list ->
  ChartSegment.offset s2
  = (ChartSegment.offset s1 + ChartSegment.percentage s1)%Q.
Proof.
  revert i cum pre. induction es as [|[k n] es IH]; intros i cum pre Heq.
  - destruct pre; discriminate.
  - destruct pre as [|p pre]; simpl in Heq; inversion Heq as [[Hs Hrest]].
    + destruct es as [|[k' n'] es]; [discriminate|].
      simpl in Hrest. inversion Hrest. reflexivity.
    + eapply IH. eassumption.
Qed.

(** X1. The wedges of [generateChartData] are laid end to end round the
    circle: the first wedge starts at offset 0, and every other wedge
    starts at the offset of the wedge before it plus the percentage of that
    wedge, the running sum that the source keeps.  When no counted label is
    the name of a member of [Object.prototype], no wedge starts before
    0. *)
Theorem X1_wedges_follow_one_another {math : MathLib}
    (c : RoomComponent.t) :
  (forall seg post,
     generated_segments c = seg :: post -> ChartSegment.offset seg = 0%Q)
  /\ (forall pre s1 s2 post,
        generated_segments c = (pre ++ s1 :: s2 :: post)%list ->
        ChartSegment.offset s2
        = (ChartSegment.offset s1 + ChartSegment.percentage s1)%Q)
  /\ (ordinary_labels (counted_estimates (RoomComponent.users c)) = true ->
      forall seg, In seg (generated_segments c) ->
                  (0 <= ChartSegment.offset seg)%Q).
Proof.
  split; [|split].
  - intros seg post Hsegs. unfold generated_segments in Hsegs.
    destruct (JsObject.entries (estimateCounts (RoomComponent.users c)))
      as [|[k n] es]; [discriminate|].
    simpl in Hsegs. inversion Hsegs. reflexivity.
  - intros pre s1 s2 post Hsegs. unfold generated_segments in Hsegs.
    eapply map_entries_adjacent. eassumption.
  - intros Hord seg Hin.
    apply in_split in Hin as (pre & post & Hsegs).
    assert (Hoff : (ChartSegment.offset seg
                    == Qsum (map ChartSegment.percentage pre))%Q).
    { pose proof Hsegs as Hs. unfold generated_segments in Hs.
      apply map_entries_offset in Hs as [Hoff _].
      rewrite Hoff. ring. }
    rewrite Hoff. apply Qsum_nonneg, Forall_forall. intros q Hq.
    apply in_map_iff in Hq as (s & <- & Hs).
    assert (Hs' : In s (generated_segments c))
      by (rewrite Hsegs; apply in_or_app; now left).
    apply (generated_segment_bounds c s Hord) in Hs' as (_ & [Hpos _] & _).
    now apply Qlt_le_weak.
Qed.

Lemma X1_wedges_follow_one_another_witness :
  generated_segments (math := rationalMath) (revealed_component users_5_5_8)
  = ([] ++ segment_5_of_5_5_8 (math := rationalMath)
        :: segment_8_of_5_5_8 (math := rationalMath) :: [])%list
  /\ ChartSegment.offset (segment_5_of_5_5_8 (math := rationalMath)) = 0%Q
  /\ ChartSegment.offset (segment_8_of_5_5_8 (math := rationalMath))
     = (ChartSegment.offset (segment_5_of_5_5_8 (math := rationalMath))
        + ChartSegment.percentage (segment_5_of_5_5_8 (math := rationalMath)))%Q
  /\ (0 <= ChartSegment.offset (segment_8_of_5_5_8 (math := rationalMath)))%Q.
Proof.
  assert (H : generated_segments (math := rationalMath)
                (revealed_component users_5_5_8)
              = ([] ++ segment_5_of_5_5_8 (math := rationalMath)
                    :: segment_8_of_5_5_8 (math := rationalMath) :: [])%list)
    by reflexivity.
  destruct (X1_wedges_follow_one_another (math := rationalMath)
              (revealed_component users_5_5_8)) as (Hfirst & Hnext & Hpos).
  split; [exact H|]. split; [exact (Hfirst _ _ H)|].
  split; [exact (Hnext _ _ _ _ H)|].
  apply (Hpos eq_refl). right. now left.
Defined.

(** X2. When no counted label is the name of a member of
    [Object.prototype], [generateChartData] makes one wedge per distinct
    counted label; the values of the wedges are at least 1 and add up to
    the number of counted participants, and the percentage of a wedge is
    its value over that number, times 100, above 0 and at most 100. *)
Theorem X2_wedge_values_and_shares {math : MathLib} (c : RoomComponent.t) :
  let total := Z.of_nat (length (votingUsers (RoomComponent.users c))) in
  ordinary_labels (counted_estimates (RoomComponent.users c)) = true ->
  length (generated_segments c)
  = length (first_occurrences (counted_estimates (RoomComponent.users c)))
  /\ Zsum (map ChartSegment.value (generated_segments c)) = total
  /\ forall seg, In seg (generated_segments c) ->
       1 <= ChartSegment.value seg <= total
       /\ (0 < ChartSegment.percentage seg)%Q
       /\ (ChartSegment.percentage seg <= 100)%Q
       /\ (ChartSegment.percentage seg
           == inject_Z (ChartSegment.value seg) / inject_Z total * 100)%Q.
Proof.
  intros total Hord. subst total.
  pose proof (CountingFacts.recorded_ordinary _ Hord) as Hrec.
  split; [|split].
  - unfold generated_segments.
    rewrite map_entries_length, entries_length.
    rewrite <- Hrec, <- CountingFacts.estimateCounts_keys.
    unfold JsObject.keys. now rewrite length_map.
  - unfold generated_segments. rewrite map_entries_value.
    rewrite <- CountingFacts.labels_of_length.
    fold (counted_estimates (RoomComponent.users c)).
    rewrite <- Hrec.
    rewrite <- (CountingFacts.estimateCounts_total (RoomComponent.users c)).
    rewrite <- (JsObjectFacts.sum_values_perm _ _
                  (JsObjectFacts.entries_perm _)).
    induction (JsObject.entries (estimateCounts (RoomComponent.users c)))
      as [|kv es IH]; simpl.
    + reflexivity.
    + unfold Zsum in *. simpl. now rewrite IH.
  - intros seg Hin.
    destruct (generated_segment_bounds c seg Hord Hin) as (Hv & [Hp Hq] & He).
    auto.
Qed.

Lemma X2_wedge_values_and_shares_witness :
  let c := revealed_component users_5_5_8 in
  ordinary_labels (counted_estimates (RoomComponent.users c)) = true
  /\ length (generated_segments (math := rationalMath) c) = 2%nat
  /\ Zsum (map ChartSegment.value (generated_segments (math := rationalMath) c))
     = 3
  /\ (ChartSegment.percentage (segment_8_of_5_5_8 (math := rationalMath))
      <= 100)%Q.
Proof.
  intros c.
  assert (Hord : ordinary_labels (counted_estimates (RoomComponent.users c))
                 = true) by reflexivity.
  destruct (X2_wedge_values_and_shares (math := rationalMath) c Hord)
    as (Hlen & Hsum & Hseg).
  split; [exact Hord|]. split; [exact Hlen|]. split; [exact Hsum|].
  apply (Hseg (segment_8_of_5_5_8 (math := rationalMath))).
  right. now left.
Defined.

(** X3. When no counted label is the name of a member of
    [Object.prototype], the chart is empty exactly when no participant
    passes the filter of [generateChartData], that is when every
    participant is an admin, has not voted, or has an estimate that is
    absent, empty or the number 0.  Without counted participant the chart
    is empty in any case. *)
Theorem X3_no_wedges_without_counted_votes {math : MathLib}
    (c : RoomComponent.t) :
  let unvoted :=
    forall u, In u (RoomComponent.users c) ->
              truthy_flag (User.isAdmin u) = true
              \/ User.hasVoted u = false
              \/ truthy (User.estimate u) = false in
  (unvoted -> generated_segments c = [])
  /\ (ordinary_labels (counted_estimates (RoomComponent.users c)) = true ->
      generated_segments c = [] -> unvoted).
Proof.
  cbv zeta. split.
  - intros Hall. apply generated_nil_voting. unfold votingUsers.
    destruct (filter is_voting_user (RoomComponent.users c)) as [|u l] eqn:Hf;
      [reflexivity|].
    assert (Hu : In u (filter is_voting_user (RoomComponent.users c)))
      by (rewrite Hf; now left).
    apply filter_In in Hu as [Hin Hv].
    unfold is_voting_user in Hv.
    destruct (Hall u Hin) as [H|[H|H]]; rewrite H in Hv;
      try discriminate.
    + now rewrite andb_false_r in Hv.
    + now rewrite andb_false_r in Hv.
  - intros Hord Hg u Hin.
    pose proof (generated_nil_ordinary c Hord Hg) as Hnil.
    unfold votingUsers in Hnil.
    destruct (is_voting_user u) eqn:Hv.
    + assert (Hu : In u (filter is_voting_user (RoomComponent.users c)))
        by (apply filter_In; auto).
      rewrite Hnil in Hu. contradiction.
    + unfold is_voting_user in Hv.
      destruct (truthy_flag (User.isAdmin u)); [now left|].
      destruct (User.hasVoted u); [|now right; left].
      right; right. exact Hv.
Qed.

Lemma X3_no_wedges_without_counted_votes_witness :
  let c := revealed_component
             [admin_voter "zed" (ENumber 3); idle "ann";
              voter "bob" (ENumber 0)] in
  ordinary_labels (counted_estimates (RoomComponent.users c)) = true
  /\ generated_segments (math := rationalMath) c = []
  /\ (forall u, In u (RoomComponent.users c) ->
                truthy_flag (User.isAdmin u) = true
                \/ User.hasVoted u = false
                \/ truthy (User.estimate u) = false).
Proof.
  intros c.
  assert (Hord : ordinary_labels (counted_estimates (RoomComponent.users c))
                 = true) by reflexivity.
  assert (Hnil : generated_segments (math := rationalMath) c = [])
    by reflexivity.
  split; [exact Hord|]. split; [exact Hnil|].
  exact (proj2 (X3_no_wedges_without_counted_votes (math := rationalMath) c)
           Hord Hnil).
Defined.

Lemma map_entries_colors {math : MathLib} c T es i cum :
  map ChartSegment.color (map_entries c T es i cum)
  = map (fun j => nth (j mod length colors)%nat colors "")
        (seq i (length es)).
Proof.
  revert i cum. induction es as [|[k n] es IH]; intros i cum; simpl.
  - reflexivity.
  - now rewrite IH.
Qed.

Lemma first_colors_NoDup (n : nat) :
  (n <= 10)%nat ->
  NoDup (map (fun j => nth (j mod length colors)%nat colors "") (seq 0 n)).
Proof.
  intros Hn.
  do 11 (destruct n as [|n];
         [cbv; repeat (constructor; [simpl; intuition discriminate|]);
          constructor|]).
  lia.
Qed.

(** X4. The wedges take the colours of the palette in turn: the wedge at
    position [i] has the colour at position [i mod 10], so every wedge has a
    colour of the palette, and the wedges of a chart of at most ten labels
    have pairwise different colours. *)
Theorem X4_wedge_colours_cycle {math : MathLib} (c : RoomComponent.t) :
  (forall pre seg post,
     generated_segments c = (pre ++ seg :: post)%list ->
     ChartSegment.color seg = nth (length pre mod 10) colors ""
     /\ In (ChartSegment.color seg) colors)
  /\ ((length (generated_segments c) <= 10)%nat ->
      NoDup (map ChartSegment.color (generated_segments c))).
Proof.
  split.
  - intros pre seg post Hsegs. unfold generated_segments in Hsegs.
    apply map_entries_offset in Hsegs as [_ Hcol].
    change (length colors) with 10%nat in Hcol.
    rewrite Nat.add_0_l in Hcol.
    split; [exact Hcol|]. rewrite Hcol. apply nth_In.
    change (length colors) with 10%nat. apply Nat.mod_upper_bound. lia.
  - intros Hlen. unfold generated_segments in *.
    rewrite map_entries_colors. rewrite map_entries_length in Hlen.
    now apply first_colors_NoDup.
Qed.

Lemma X4_wedge_colours_cycle_witness :
  (length (generated_segments (math := rationalMath)
             (revealed_component users_5_5_8)) <= 10)%nat
  /\ NoDup (map ChartSegment.color
              (generated_segments (math := rationalMath)
                 (revealed_component users_5_5_8))).
Proof.
  assert (H : (length (generated_segments (math := rationalMath)
                         (revealed_component users_5_5_8)) <= 10)%nat)
    by (simpl; lia).
  split; [exact H|].
  exact (proj2 (X4_wedge_colours_cycle (math := rationalMath)
                  (revealed_component users_5_5_8)) H).
Defined.

(** X5. The chart depends on the participant list only through the labels
    of the participants that pass the filter, in their order: two lists
    with the same counted labels give the same wedges.  Admins, participants
    who have not voted, names, identifiers, and whether a vote came as a
    number or as its decimal string make no difference. *)
Theorem X5_chart_depends_on_counted_labels {math : MathLib}
    (c1 c2 : RoomComponent.t) :
  counted_estimates (RoomComponent.users c1)
  = counted_estimates (RoomComponent.users c2) ->
  RoomComponent.chartRadius c1 = RoomComponent.chartRadius c2 ->
  RoomComponent.chartCenterX c1 = RoomComponent.chartCenterX c2 ->
  RoomComponent.chartCenterY c1 = RoomComponent.chartCenterY c2 ->
  generated_segments c1 = generated_segments c2.
Proof.
  intros Hl Hr Hx Hy. unfold generated_segments.
  rewrite !estimateCounts_labels, Hl.
  rewrite <- !CountingFacts.labels_of_length.
  fold (counted_estimates (RoomComponent.users c1)).
  fold (counted_estimates (RoomComponent.users c2)).
  rewrite Hl. now apply map_entries_ext.
Qed.

Lemma X5_chart_depends_on_counted_labels_witness :
  let c1 := revealed_component
              [admin_voter "zed" (ENumber 13); voter "ann" (ENumber 5);
               idle "bob"] in
  let c2 := revealed_component [voter "cyd" (EString "5")] in
  counted_estimates (RoomComponent.users c1)
  = counted_estimates (RoomComponent.users c2)
  /\ generated_segments (math := rationalMath) c1
     = generated_segments (math := rationalMath) c2.
Proof.
  intros c1 c2.
  assert (H : counted_estimates (RoomComponent.users c1)
              = counted_estimates (RoomComponent.users c2)) by reflexivity.
  split; [exact H|].
  exact (X5_chart_depends_on_counted_labels (math := rationalMath) c1 c2
           H eq_refl eq_refl eq_refl).
Defined.

(** X6. Under a label that is not the name of a member of
    [Object.prototype], the entry of the counting object of
    [generateChartData] is the number of counted participants with that
    label, whatever the labels of the other participants; such a label
    that no counted participant bears has no entry. *)
Theorem X6_distribution_lookup (users : list User.t) (k : string) :
  ordinary_label k = true ->
  JsObject.get (estimateCounts users) k
  = if mem k (counted_estimates users)
    then Some (occurrences k (counted_estimates users))
    else None.
Proof.
  intros Hk. apply CountingFacts.ordinary_label_proto in Hk.
  rewrite estimateCounts_get.
  now rewrite CountingFacts.recorded_mem, CountingFacts.recorded_occurrences.
Qed.

Lemma X6_distribution_lookup_witness :
  ordinary_label "5" = true
  /\ JsObject.get (estimateCounts users_5_5_8) "5" = Some 2
  /\ JsObject.get (estimateCounts users_5_proto) "5" = Some 1
  /\ JsObject.get (estimateCounts users_5_proto) "8" = None.
Proof.
  split; [reflexivity|]. split; [|split].
  - exact (X6_distribution_lookup users_5_5_8 "5" eq_refl).
  - exact (X6_distribution_lookup users_5_proto "5" eq_refl).
  - exact (X6_distribution_lookup users_5_proto "8" eq_refl).
Defined.

Section OrderIndependence.

Context {math : MathLib}.
Import JsObject JsObjectFacts CountingFacts.

Lemma array_index_canonical (k : string) (n : N) :
  array_index k = Some n -> k = NilZero.string_of_uint (N.to_uint n).
Proof.
  unfold array_index. destruct (NilEmpty.uint_of_string k) as [d|];
    [|discriminate].
  destruct (String.eqb_spec
              (NilZero.string_of_uint (N.to_uint (N.of_uint d))) k)
    as [Heq|Hne]; simpl; [|discriminate].
  destruct (N.of_uint d <? 4294967295)%N; [|discriminate].
  intros H. inversion H; subst. now symmetry.
Qed.

Lemma index_of_inj (k k' : string) :
  is_index k = true -> is_index k' = true ->
  index_of k = index_of k' -> k = k'.
Proof.
  unfold is_index, index_of.
  destruct (array_index k) as [n|] eqn:Hk; [|discriminate].
  destruct (array_index k') as [n'|] eqn:Hk'; [|discriminate].
  intros _ _ ->.
  now rewrite (array_index_canonical _ _ Hk), (array_index_canonical _ _ Hk').
Qed.

Lemma filter_perm {A : Type} (f : A -> bool) (l1 l2 : list A) :
  Permutation l1 l2 -> Permutation (filter f l1) (filter f l2).
Proof.
  induction 1 as [|x l1 l2 _ IH|x y l|l1 l2 l3 _ IH1 _ IH2]; simpl.
  - apply perm_nil.
  - destruct (f x); [now apply perm_skip | exact IH].
  - destruct (f x), (f y); try apply Permutation_refl. apply perm_swap.
  - eapply perm_trans; eassumption.
Qed.

Lemma sorted_perm_unique {V : Type} (l1 l2 : t V) :
  StronglySorted index_le l1 -> StronglySorted index_le l2 ->
  Permutation l1 l2 ->
  (forall x y, In x l1 -> In y l1 -> index_le x y -> index_le y x -> x = y) ->
  l1 = l2.
Proof.
  revert l2. induction l1 as [|x l1 IH]; intros l2 Hs1 Hs2 Hp Hanti.
  - symmetry. now apply Permutation_nil.
  - destruct l2 as [|y l2].
    + apply Permutation_sym, Permutation_nil in Hp. discriminate.
    + inversion Hs1 as [|? ? Hs1' Hall1]; subst.
      inversion Hs2 as [|? ? Hs2' Hall2]; subst.
      assert (Hxy : x = y).
      { assert (Hx : In x (y :: l2))
          by (eapply Permutation_in; [exact Hp | now left]).
        assert (Hy : In y (x :: l1))
          by (eapply Permutation_in;
              [apply Permutation_sym; exact Hp | now left]).
        destruct Hx as [->|Hx]; [reflexivity|].
        destruct Hy as [->|Hy]; [reflexivity|].
        apply Hanti; [now left | now right | |].
        - rewrite Forall_forall in Hall1. now apply Hall1.
        - rewrite Forall_forall in Hall2. now apply Hall2. }
      subst y. f_equal. apply IH; try assumption.
      * now apply Permutation_cons_inv in Hp.
      * intros a b Ha Hb. apply Hanti; now right.
Qed.

Lemma estimateCounts_perm (us1 us2 : list User.t) :
  Permutation (counted_estimates us1) (counted_estimates us2) ->
  Permutation (estimateCounts us1) (estimateCounts us2).
Proof.
  intros Hp. apply NoDup_Permutation.
  - apply (NoDup_map_inv fst), estimateCounts_NoDup.
  - apply (NoDup_map_inv fst), estimateCounts_NoDup.
  - assert (Hr : Permutation (recorded (counted_estimates us1))
                             (recorded (counted_estimates us2)))
      by (apply filter_perm, Hp).
    intros [k v]. rewrite !estimateCounts_In. unfold occurrences.
    rewrite (proj1 (Permutation_count_occ string_dec _ _) Hr k).
    split; intros [Hin Hv]; (split; [|exact Hv]).
    + eapply Permutation_in; eassumption.
    + eapply Permutation_in; [apply Permutation_sym|]; eassumption.
Qed.

Lemma entries_all_index (users : list User.t) :
  (forall k, In k (counted_estimates users) -> is_index k = true) ->
  entries (estimateCounts users) = sort_by_index (estimateCounts users).
Proof.
  intros Hall.
  assert (Hkeys : forall kv, In kv (estimateCounts users) ->
                             is_index (fst kv) = true).
  { intros [k v] Hin. apply estimateCounts_In in Hin as [Hin _].
    apply recorded_In in Hin as [Hin _]. now apply Hall. }
  unfold entries, index_props, string_props.
  induction (estimateCounts users) as [|kv o IH]; simpl.
  - reflexivity.
  - rewrite (Hkeys kv (or_introl eq_refl)). simpl.
    assert (IH' := IH (fun kv' H => Hkeys kv' (or_intror H))).
    apply (f_equal (fun l => insert_by_index kv l)) in IH'.
    rewrite <- IH'. clear IH IH'.
    assert (Hs : filter (fun kv0 => negb (is_index (fst kv0))) o = []).
    { induction o as [|kv' o IHo]; simpl; [reflexivity|].
      rewrite (Hkeys kv' (or_intror (or_introl eq_refl))). simpl.
      apply IHo. intros kv'' [H|H]; apply Hkeys; [now left | right; now right]. }
    rewrite Hs, !app_nil_r. reflexivity.
Qed.

Lemma generated_order_independent (c1 c2 : RoomComponent.t) :
  Permutation (RoomComponent.users c1) (RoomComponent.users c2) ->
  (forall k, In k (counted_estimates (RoomComponent.users c1)) ->
             is_index k = true) ->
  RoomComponent.chartRadius c1 = RoomComponent.chartRadius c2 ->
  RoomComponent.chartCenterX c1 = RoomComponent.chartCenterX c2 ->
  RoomComponent.chartCenterY c1 = RoomComponent.chartCenterY c2 ->
  generated_segments c1 = generated_segments c2.
Proof.
  intros Hp Hidx Hr Hx Hy.
  assert (Hv : Permutation (votingUsers (RoomComponent.users c1))
                           (votingUsers (RoomComponent.users c2)))
    by (apply filter_perm, Hp).
  assert (Hl : Permutation (counted_estimates (RoomComponent.users c1))
                           (counted_estimates (RoomComponent.users c2)))
    by (apply Permutation_flat_map, Hv).
  assert (Hidx2 : forall k,
            In k (counted_estimates (RoomComponent.users c2)) ->
            is_index k = true).
  { intros k Hk. apply Hidx.
    eapply Permutation_in; [apply Permutation_sym|]; eassumption. }
  unfold generated_segments.
  rewrite (Permutation_length Hv).
  rewrite (entries_all_index _ Hidx), (entries_all_index _ Hidx2).
  replace (sort_by_index (estimateCounts (RoomComponent.users c1)))
    with (sort_by_index (estimateCounts (RoomComponent.users c2))).
  - now apply map_entries_ext.
  - symmetry. apply sorted_perm_unique.
    + apply sort_by_index_sorted.
    + apply sort_by_index_sorted.
    + eapply perm_trans; [apply sort_by_index_perm|].
      eapply perm_trans; [apply estimateCounts_perm, Hl|].
      apply Permutation_sym, sort_by_index_perm.
    + intros [k v] [k' v'] Hin Hin' Hle Hle'.
      apply (Permutation_in _ (sort_by_index_perm _)) in Hin, Hin'.
      pose proof Hin as Hin0. pose proof Hin' as Hin0'.
      apply estimateCounts_In in Hin as [Hk ->].
      apply estimateCounts_In in Hin' as [Hk' ->].
      apply recorded_In in Hk as [Hk _].
      apply recorded_In in Hk' as [Hk' _].
      unfold index_le in Hle, Hle'. simpl in Hle, Hle'.
      assert (k = k') by (apply index_of_inj; auto; lia).
      now subst k'.
Qed.

End OrderIndependence.

(** X7. When every counted label is an array index, as the story points
    1, 3, 5, 8 and 13 are, the chart does not depend on the order of the
    participants: two participant lists that are rearrangements of one
    another give the same wedges, in the same order. *)
Theorem X7_story_point_chart_ignores_order {math : MathLib}
    (c1 c2 : RoomComponent.t) :
  Permutation (RoomComponent.users c1) (RoomComponent.users c2) ->
  (forall k, In k (counted_estimates (RoomComponent.users c1)) ->
             JsObject.is_index k = true) ->
  RoomComponent.chartRadius c1 = RoomComponent.chartRadius c2 ->
  RoomComponent.chartCenterX c1 = RoomComponent.chartCenterX c2 ->
  RoomComponent.chartCenterY c1 = RoomComponent.chartCenterY c2 ->
  generated_segments c1 = generated_segments c2
  /\ StronglySorted index_order
       (map fst (JsObject.entries (estimateCounts (RoomComponent.users c1)))).
Proof.
  intros Hp Hidx Hr Hx Hy. split.
  - now apply generated_order_independent.
  - rewrite (entries_all_index _ Hidx).
    apply StronglySorted_keys, JsObjectFacts.sort_by_index_sorted.
Qed.

Lemma X7_story_point_chart_ignores_order_witness :
  let c1 := revealed_component users_8_5 in
  let c2 := revealed_component
              [voter "bob" (ENumber 5); voter "ann" (ENumber 8)] in
  Permutation (RoomComponent.users c1) (RoomComponent.users c2)
  /\ generated_segments (math := rationalMath) c1
     = generated_segments (math := rationalMath) c2.
Proof.
  intros c1 c2.
  assert (Hp : Permutation (RoomComponent.users c1) (RoomComponent.users c2))
    by apply perm_swap.
  split; [exact Hp|].
  apply (X7_story_point_chart_ignores_order (math := rationalMath) c1 c2 Hp);
    try reflexivity.
  intros k [<-|[<-|[]]]; reflexivity.
Defined.

(* ------------------------------------------------------------------ *)
(** ** Further facts about the socket handlers *)

Section EventFacts.

Context {math : MathLib}.

Lemma exec_bind {A B : Type} (m : M A) (k : A -> M B) (a : App.t) :
  exec (bind m k) a = exec (k (fst (fst (m a)))) (exec m a).
Proof.
  unfold exec, bind. destruct (m a) as [[x a1] l1]. simpl.
  now destruct (k x a1) as [[y a2] l2].
Qed.

Lemma log_of_bind {A B : Type} (m : M A) (k : A -> M B) (a : App.t) :
  log_of (bind m k) a
  = (log_of m a ++ log_of (k (fst (fst (m a)))) (exec m a))%list.
Proof.
  unfold log_of, exec, bind. destruct (m a) as [[x a1] l1]. simpl.
  now destruct (k x a1) as [[y a2] l2].
Qed.

Lemma handle_mirrors (e : InboundEvent) (a : App.t) :
  mirrors a -> mirrors (exec (handle e) a).
Proof.
  destruct a as [s c st]. destruct s, c. unfold mirrors. simpl.
  intros (Hu & Hr & Hs & Hv). subst.
  destruct e; run_methods; auto.
Qed.

Lemma setupSubscriptions_mirrors (a : App.t) :
  mirrors (exec setupSubscriptions a).
Proof.
  destruct a as [s c st]. destruct s, c. unfold mirrors, setupSubscriptions.
  run_methods; auto.
Qed.

Lemma handle_chart_current (e : InboundEvent) (a : App.t) :
  chart_current (App.component a) ->
  chart_current (App.component (exec (handle e) a)).
Proof.
  destruct a as [s c st]. destruct s, c. unfold chart_current. simpl.
  intros H.
  destruct e; run_methods; intros Hr; try discriminate;
    try (rewrite (H Hr)); apply generated_segments_ext; reflexivity.
Qed.

Lemma setupSubscriptions_chart_current (a : App.t) :
  chart_current (App.component (exec setupSubscriptions a)).
Proof.
  destruct a as [s c st]. destruct s, c.
  unfold chart_current, setupSubscriptions.
  run_methods; intros Hr; try discriminate;
    apply generated_segments_ext; reflexivity.
Qed.

Lemma handle_all_invariant (P : App.t -> Prop) :
  (forall e a, P a -> P (exec (handle e) a)) ->
  forall es a, P a -> P (exec (handle_all es) a).
Proof.
  intros Hstep es. induction es as [|e es IH]; intros a Ha.
  - exact Ha.
  - simpl. rewrite exec_bind. apply IH, Hstep, Ha.
Qed.

End EventFacts.

(** X8. Once the component has subscribed, whatever events arrive, it shows
    what the service holds: its participant list, its room and its two
    phase flags are those of the service. *)
Theorem X8_component_mirrors_service {math : MathLib}
    (a : App.t) (es : list InboundEvent) :
  mirrors (exec (setupSubscriptions ;; handle_all es) a).
Proof.
  rewrite exec_bind.
  apply (handle_all_invariant mirrors).
  - intros e b. apply handle_mirrors.
  - apply setupSubscriptions_mirrors.
Qed.

(** X9. Once the component has subscribed, whatever events arrive, while
    the results are revealed the wedges on display are those that
    [generateChartData] makes of the participant list on display: no event
    leaves a chart of an older list behind a raised reveal flag. *)
Theorem X9_revealed_chart_is_current {math : MathLib}
    (a : App.t) (es : list InboundEvent) :
  let c := App.component (exec (setupSubscriptions ;; handle_all es) a) in
  RoomComponent.resultsRevealed c = true ->
  RoomComponent.chartSegments c = generated_segments c.
Proof.
  intros c. subst c. rewrite exec_bind.
  apply (handle_all_invariant (fun b => chart_current (App.component b))).
  - intros e b. apply handle_chart_current.
  - apply setupSubscriptions_chart_current.
Qed.

Lemma X9_revealed_chart_is_current_witness :
  let c := App.component
             (exec (setupSubscriptions (math := rationalMath) ;;
                    handle_all (math := rationalMath)
                      [Estimation_started [idle "ann"; idle "bob"] None;
                       Votes_revealed true users_5_5_8 None])
                   (App_initial "room")) in
  RoomComponent.resultsRevealed c = true
  /\ RoomComponent.chartSegments c
     = generated_segments (math := rationalMath) c.
Proof.
  intros c.
  assert (H : RoomComponent.resultsRevealed c = true) by reflexivity.
  split; [exact H|].
  exact (X9_revealed_chart_is_current (math := rationalMath)
           (App_initial "room") _ H).
Defined.

(** X10. An event that lowers the reveal flag does not empty the chart:
    after [voting-reset], [estimation-started] or a [votes-revealed] with
    [revealed: false] arriving while the results are revealed, the reveal
    flag of the component is false and the wedges on display are those of
    the participant list of the payload.  They are gone when that list has
    no counted vote and, when no counted label is the name of a member of
    [Object.prototype], only then. *)
Theorem X10_lowered_flag_keeps_wedges {math : MathLib}
    (a : App.t) (e : InboundEvent) (users : list User.t) :
  RoomComponent.resultsRevealed (App.component a) = true ->
  (exists results, e = Voting_reset users results
                   \/ e = Estimation_started users results)
  \/ (exists summary, e = Votes_revealed false users summary) ->
  let c' := App.component (exec (handle e) a) in
  RoomComponent.resultsRevealed c' = false
  /\ RoomComponent.users c' = users
  /\ RoomComponent.chartSegments c' = generated_segments c'
  /\ (votingUsers users = [] -> RoomComponent.chartSegments c' = [])
  /\ (ordinary_labels (counted_estimates users) = true ->
      RoomComponent.chartSegments c' = [] -> votingUsers users = []).
Proof.
  intros Hrev He c'.
  assert (H3 : RoomComponent.resultsRevealed c' = false
               /\ RoomComponent.users c' = users
               /\ RoomComponent.chartSegments c' = generated_segments c').
  { subst c'. destruct a as [s c st]. destruct s, c. simpl in Hrev. subst.
    destruct He as [[results [-> | ->]] | [summary ->]];
      run_methods; repeat split;
      apply generated_segments_ext; reflexivity. }
  destruct H3 as (Hf & Hu & Hc). repeat split; try assumption.
  - intros Hnil. rewrite Hc. apply generated_nil_voting. now rewrite Hu.
  - intros Hord Hnil. rewrite Hc in Hnil. rewrite <- Hu.
    apply generated_nil_ordinary; [now rewrite Hu | exact Hnil].
Qed.

Lemma X10_lowered_flag_keeps_wedges_witness :
  let a := exec (handle (math := rationalMath)
                   (Votes_revealed true users_5_5_8 None))
                (App_initial "room") in
  let c' := App.component
              (exec (handle (math := rationalMath)
                       (Voting_reset users_5_5_8 None)) a) in
  RoomComponent.resultsRevealed (App.component a) = true
  /\ ordinary_labels (counted_estimates users_5_5_8) = true
  /\ RoomComponent.resultsRevealed c' = false
  /\ RoomComponent.chartSegments c'
     = generated_segments (math := rationalMath) c'
  /\ RoomComponent.chartSegments c' <> [].
Proof.
  intros a c'.
  assert (Hrev : RoomComponent.resultsRevealed (App.component a) = true)
    by reflexivity.
  assert (Hord : ordinary_labels (counted_estimates users_5_5_8) = true)
    by reflexivity.
  destruct (X10_lowered_flag_keeps_wedges (math := rationalMath) a
              (Voting_reset users_5_5_8 None) users_5_5_8 Hrev
              (or_introl (ex_intro _ None (or_introl eq_refl))))
    as (Hf & _ & Hc & _ & Hnil).
  split; [exact Hrev|]. split; [exact Hord|].
  split; [exact Hf|]. split; [exact Hc|].
  intros Hempty. apply (Hnil Hord) in Hempty. discriminate Hempty.
Defined.

(** X11. Inbound events stay inside the page: handling an event sends
    nothing on the socket or over HTTP, opens no dialog and does not
    navigate (it only schedules a change detection, shows the confetti or
    logs an error), and it leaves the room identifier, the current user, the
    local storage, the name dialog, the admin flag, the editing flag and the
    closed flag as they were.  The selected card is put back exactly when
    the event raises the reveal flag, that is on [votes-revealed] with
    [revealed: true] and on [room-state] with a revealed room. *)
Theorem X11_events_stay_local {math : MathLib}
    (e : InboundEvent) (a : App.t) :
  let c := App.component a in
  let c' := App.component (exec (handle e) a) in
  Forall local_effect (log_of (handle e) a)
  /\ App.localStorage (exec (handle e) a) = App.localStorage a
  /\ RoomComponent.roomId c' = RoomComponent.roomId c
  /\ RoomComponent.currentUser c' = RoomComponent.currentUser c
  /\ RoomComponent.showNameDialog c' = RoomComponent.showNameDialog c
  /\ RoomComponent.userName c' = RoomComponent.userName c
  /\ RoomComponent.isAdmin c' = RoomComponent.isAdmin c
  /\ RoomComponent.isEditingStory c' = RoomComponent.isEditingStory c
  /\ RoomComponent.roomClosed c' = RoomComponent.roomClosed c
  /\ RoomComponent.selectedEstimate c'
     = match e with
       | Room_state room _ _ =>
           if Room.votingRevealed room then None
           else RoomComponent.selectedEstimate c
       | Votes_revealed revealed _ _ =>
           if revealed then None else RoomComponent.selectedEstimate c
       | _ => RoomComponent.selectedEstimate c
       end.
Proof.
  destruct a as [s c st]. destruct s, c.
  destruct e as [r us res| | | | |rv vs sm| | | |];
    try destruct r as [rid rn ruc ran rs rvr res' rca rla];
    run_methods; repeat split; repeat constructor.
Qed.

(** X12. An event that carries a room snapshot ([room-state],
    [user-joined], [user-left]) overwrites the story draft of the component
    with the title of the snapshot's story, or its description when the
    title is empty, even while the story is being edited, and leaves the
    editing flag as it was; after it, whatever is typed into the draft,
    [cancelEditStory] brings that text back and closes the editor. *)
Theorem X12_snapshot_overwrites_draft {math : MathLib}
    (e : InboundEvent) (r : Room.t) (a : App.t) (draft : string) :
  room_of_event e = Some r ->
  let c := App.component a in
  let c' := App.component (exec (handle e) a) in
  let text := if (Story.title (Room.story r) =? "")%string
              then Story.description (Room.story r)
              else Story.title (Room.story r) in
  RoomComponent.storySummary c' = text
  /\ RoomComponent.isEditingStory c' = RoomComponent.isEditingStory c
  /\ RoomComponent.storySummary
       (cancelEditStory
          (RoomComponent.set_storySummary (fst (editStory c')) draft))
     = text
  /\ RoomComponent.isEditingStory
       (cancelEditStory
          (RoomComponent.set_storySummary (fst (editStory c')) draft))
     = false.
Proof.
  intros Hr c c' text. subst c c'.
  assert (Htext : story_text r = text).
  { subst text. unfold story_text, or_string.
    destruct (Story.title (Room.story r) =? "")%string eqn:Hx;
      [|now rewrite Hx].
    destruct (Story.description (Room.story r) =? "")%string eqn:Hy;
      [|reflexivity].
    apply String.eqb_eq in Hy. now rewrite Hy. }
  rewrite <- Htext. clear Htext text.
  destruct a as [s c st]. destruct s, c.
  destruct e; inversion Hr; subst;
    unfold cancelEditStory, editStory, story_text; unfold_methods;
    cbn -[generated_segments or_string];
    repeat (match goal with
            | |- context [if ?b then _ else _] => destruct b
            | |- context [match ?x with Some _ => _ | None => _ end] =>
                destruct x
            end; cbn -[generated_segments or_string]);
    repeat split; reflexivity.
Qed.

Lemma X12_snapshot_overwrites_draft_witness :
  let r := Room.mk "room" "Sprint 12" 2 "ann" (Story.mk "" "Login page")
             false true "t0" "t1" in
  let e := User_joined (idle "bob") r [idle "ann"; idle "bob"] in
  room_of_event e = Some r
  /\ RoomComponent.storySummary
       (App.component
          (exec (handle (math := rationalMath) e)
                (app_of (RoomComponent.set_storySummary
                           (fst (editStory (voting_component None)))
                           "half typed"))))
     = "Login page".
Proof.
  intros r e. split; [reflexivity|].
  exact (proj1 (X12_snapshot_overwrites_draft (math := rationalMath)
                  e r _ "" eq_refl)).
Defined.

(* ------------------------------------------------------------------ *)
(** ** Further facts about casting a vote *)

Section PressFacts.

Lemma selectEstimate_on (s : RoomService.t) (c : RoomComponent.t)
    (st : Storage.t) (u : User.t) (v : Estimate) :
  RoomComponent.estimationStarted c = true ->
  RoomComponent.currentUser c = Some u ->
  RoomComponent.selectedEstimate c <> Some v ->
  selectEstimate v (App.mk s c st)
  = (tt, App.mk s (with_vote c u (Some v) true) st,
     [Socket_emit_submit_vote (RoomComponent.roomId c) (User.id u)
        (Estimate_toString v)]).
Proof.
  intros Hs Hu Hsel. apply strict_eq_false in Hsel.
  unfold selectEstimate, bind, this. cbn [App.component].
  rewrite Hs, Hu. cbn [negb]. now rewrite Hsel.
Qed.

Lemma selectEstimate_off (s : RoomService.t) (c : RoomComponent.t)
    (st : Storage.t) (u : User.t) (v : Estimate) :
  RoomComponent.estimationStarted c = true ->
  RoomComponent.currentUser c = Some u ->
  RoomComponent.selectedEstimate c = Some v ->
  selectEstimate v (App.mk s c st)
  = (tt, App.mk s (with_vote c u None false) st,
     [Socket_emit_submit_vote (RoomComponent.roomId c) (User.id u) ""]).
Proof.
  intros Hs Hu Hsel. apply strict_eq_true in Hsel.
  unfold selectEstimate, bind, this. cbn [App.component].
  rewrite Hs, Hu. cbn [negb]. now rewrite Hsel.
Qed.

Lemma press_parity (v : Estimate) (n : nat) :
  forall (s : RoomService.t) (c : RoomComponent.t) (st : Storage.t)
         (u : User.t),
    RoomComponent.estimationStarted c = true ->
    RoomComponent.currentUser c = Some u ->
    (RoomComponent.selectedEstimate c <> Some v ->
     exec (press v (S n)) (App.mk s c st)
     = App.mk s (if Nat.even n then with_vote c u (Some v) true
                 else with_vote c u None false) st)
    /\ (RoomComponent.selectedEstimate c = Some v ->
        exec (press v (S n)) (App.mk s c st)
        = App.mk s (if Nat.even n then with_vote c u None false
                    else with_vote c u (Some v) true) st).
Proof.
  induction n as [|n IH]; intros s c st u Hs Hu.
  - split; intros Hsel; unfold exec, press, bind, ret.
    + now rewrite (selectEstimate_on s c st u v Hs Hu Hsel).
    + now rewrite (selectEstimate_off s c st u v Hs Hu Hsel).
  - rewrite Nat.even_succ, <- Nat.negb_even.
    split; intros Hsel.
    + change (press v (S (S n)))
        with (selectEstimate v ;; press v (S n))%method.
      rewrite exec_bind. unfold exec at 2.
      rewrite (selectEstimate_on s c st u v Hs Hu Hsel). cbn [fst snd].
      destruct (IH s (with_vote c u (Some v) true) st
                  (set_vote u (Some v) true) Hs eq_refl) as [_ Hon].
      rewrite (Hon eq_refl). now destruct (Nat.even n).
    + change (press v (S (S n)))
        with (selectEstimate v ;; press v (S n))%method.
      rewrite exec_bind. unfold exec at 2.
      rewrite (selectEstimate_off s c st u v Hs Hu Hsel). cbn [fst snd].
      destruct (IH s (with_vote c u None false) st
                  (set_vote u None false) Hs eq_refl) as [Hoff _].
      rewrite Hoff by discriminate. now destruct (Nat.even n).
Qed.

Lemma press_log_length (v : Estimate) (n : nat) (a : App.t) (u : User.t) :
  RoomComponent.estimationStarted (App.component a) = true ->
  RoomComponent.currentUser (App.component a) = Some u ->
  length (log_of (press v n) a) = n.
Proof.
  revert a u. induction n as [|n IH]; intros [s c st] u Hs Hu.
  - reflexivity.
  - change (press v (S n)) with (selectEstimate v ;; press v n)%method.
    rewrite log_of_bind, length_app. cbn [App.component] in *.
    destruct (strict_eq (RoomComponent.selectedEstimate c) v) eqn:Hsel.
    + apply strict_eq_true in Hsel.
      unfold log_of at 1, exec.
      rewrite (selectEstimate_off s c st u v Hs Hu Hsel). cbn [fst snd].
      rewrite (IH _ (set_vote u None false));
        [reflexivity | exact Hs | reflexivity].
    + apply strict_eq_false in Hsel.
      unfold log_of at 1, exec.
      rewrite (selectEstimate_on s c st u v Hs Hu Hsel). cbn [fst snd].
      rewrite (IH _ (set_vote u (Some v) true));
        [reflexivity | exact Hs | reflexivity].
Qed.

End PressFacts.

(** X13. Pressing the same card again and again toggles the vote: with
    estimation in progress and a current user, after an odd number of
    presses of a card that was not selected the card is selected, it is the
    estimate of the current user and the voted flag is set; after an even
    number the selection is null, the estimate of the user absent and the
    voted flag false.  Nothing else changes, and each press sends one vote
    to the backend. *)
Theorem X13_presses_toggle_by_parity
    (a : App.t) (u : User.t) (v : Estimate) (n : nat) :
  let c := App.component a in
  let after sel voted :=
    App.mk (App.service a)
      (RoomComponent.mk (RoomComponent.roomId c)
         (Some (User.mk (User.id u) (User.name u) sel voted
                  (User.isAdmin u) (User.connected u)))
         (RoomComponent.users c) sel (RoomComponent.showNameDialog c)
         (RoomComponent.userName c) (RoomComponent.isAdmin c)
         (RoomComponent.storySummary c) (RoomComponent.isEditingStory c)
         (RoomComponent.roomClosed c) (RoomComponent.room c)
         (RoomComponent.estimationStarted c)
         (RoomComponent.resultsRevealed c) (RoomComponent.chartSegments c)
         (RoomComponent.chartRadius c) (RoomComponent.chartCenterX c)
         (RoomComponent.chartCenterY c) (RoomComponent.urlCopied c))
      (App.localStorage a) in
  RoomComponent.estimationStarted c = true ->
  RoomComponent.currentUser c = Some u ->
  RoomComponent.selectedEstimate c <> Some v ->
  exec (press v (S n)) a
  = (if Nat.odd (S n) then after (Some v) true else after None false)
  /\ length (log_of (press v (S n)) a) = S n.
Proof.
  intros c after Hs Hu Hsel. subst c after. destruct a as [s c st].
  cbn [App.component App.service App.localStorage] in *. split.
  - rewrite Nat.odd_succ.
    rewrite (proj1 (press_parity v n s c st u Hs Hu) Hsel).
    destruct c. now destruct (Nat.even n).
  - now apply (press_log_length v (S n) (App.mk s c st) u).
Qed.

Lemma X13_presses_toggle_by_parity_witness :
  let a := app_of (voting_component None) in
  let thrice := App.component (exec (press (EString "info") 3) a) in
  let twice := App.component (exec (press (EString "info") 2) a) in
  RoomComponent.selectedEstimate (App.component a) <> Some (EString "info")
  /\ RoomComponent.selectedEstimate thrice = Some (EString "info")
  /\ RoomComponent.currentUser thrice
     = Some (User.mk "u1" "ann" (Some (EString "info")) true (Some false)
               None)
  /\ RoomComponent.selectedEstimate twice = None
  /\ RoomComponent.currentUser twice
     = Some (User.mk "u1" "ann" None false (Some false) None)
  /\ length (log_of (press (EString "info") 3) a) = 3%nat.
Proof.
  intros a thrice twice.
  assert (Hsel : RoomComponent.selectedEstimate (App.component a)
                 <> Some (EString "info")) by discriminate.
  destruct (X13_presses_toggle_by_parity a
              (User.mk "u1" "ann" None false (Some false) None)
              (EString "info") 2 eq_refl eq_refl Hsel) as [H3 Hlog].
  destruct (X13_presses_toggle_by_parity a
              (User.mk "u1" "ann" None false (Some false) None)
              (EString "info") 1 eq_refl eq_refl Hsel) as [H2 _].
  split; [exact Hsel|]. subst thrice twice. rewrite H3, H2.
  repeat split.
Defined.

(** X14. [closeRoom] exits only on a confirmed dialog in a session with a
    current user: when the dialog is cancelled, or when there is no current
    user, the dialog is all that happens (no request, nothing removed from
    the local storage, no navigation), whatever an answer would have
    been. *)
Theorem X14_closeRoom_without_exit
    (a : App.t) (isConfirmed : bool) (outcome : HttpOutcome) :
  isConfirmed = false \/ RoomComponent.currentUser (App.component a) = None ->
  closeRoom_run isConfirmed outcome a
  = (tt, a, [Swal_fire "warning" "Close Room?"]).
Proof.
  intros H. destruct a as [s c st].
  unfold closeRoom_run, closeRoom, closeRoom_then, bind, ret, tell, this.
  cbn [App.component] in *.
  destruct H as [-> | ->]; [reflexivity | now destruct isConfirmed].
Qed.

Lemma X14_closeRoom_without_exit_witness :
  closeRoom_run false Http_error stored_session
  = (tt, stored_session, [Swal_fire "warning" "Close Room?"]).
Proof.
  apply (X14_closeRoom_without_exit stored_session false Http_error).
  now left.
Defined.

Section RevealFacts.

Import JsObject JsObjectFacts CountingFacts.

Lemma fold_count_revealed (votes : list User.t) (o : t Z) :
  fold_left count_revealed votes o
  = fold_left count_label (labels_of (revealed_voters votes)) o.
Proof.
  revert o. induction votes as [|u votes IH]; intros o; simpl.
  - reflexivity.
  - unfold count_revealed at 2.
    destruct (User.hasVoted u && truthy (User.estimate u)) eqn:Hv; simpl.
    + destruct (User.estimate u) as [e|] eqn:He.
      * simpl. apply IH.
      * rewrite andb_false_r in Hv. discriminate.
    + apply IH.
Qed.

Lemma votingUsers_revealed_voters (votes : list User.t) :
  (length (votingUsers votes) <= length (revealed_voters votes))%nat.
Proof.
  unfold votingUsers, revealed_voters, is_voting_user.
  induction votes as [|u votes IH]; simpl.
  - lia.
  - destruct (truthy_flag (User.isAdmin u)); simpl;
      destruct (User.hasVoted u && truthy (User.estimate u)); simpl; lia.
Qed.

End RevealFacts.

(** X15. The distribution that the [votes-revealed] handler hands to the
    service counts every participant of the payload who has voted with a
    non-empty estimate, admins included (the chart leaves the admins out).
    Under a label that is not the name of a member of [Object.prototype]
    its entry is the number of these participants with that label, and
    there is no entry when there is none; when none of their labels is such
    a name, the entries add up to the number of these participants.  The
    total is the one of the summary, or 0 without one, whatever the counts,
    and the average is left absent. *)
Theorem X15_revealed_distribution {math : MathLib}
    (a : App.t) (revealed : bool) (votes : list User.t)
    (summary : option Summary.t) :
  let labels := labels_of (revealed_voters votes) in
  exists results,
    RoomService.votingResults
      (App.service (exec (handle (Votes_revealed revealed votes summary)) a))
    = Some results
    /\ (forall k, ordinary_label k = true ->
                  JsObject.get (VotingResults.estimates results) k
                  = if mem k labels then Some (occurrences k labels)
                    else None)
    /\ (ordinary_labels labels = true ->
        JsObject.sum_values (VotingResults.estimates results)
        = Z.of_nat (length (revealed_voters votes)))
    /\ (length (votingUsers votes) <= length (revealed_voters votes))%nat
    /\ VotingResults.totalVotes results
       = match summary with
         | Some s => or_zero (Summary.totalVotes s)
         | None => 0
         end
    /\ VotingResults.averageEstimate results = None
    /\ VotingResults.revealed results = Some revealed.
Proof.
  intros labels.
  exists (VotingResults.mk
            (or_zero (match summary with
                      | Some s => Summary.totalVotes s
                      | None => None
                      end))
            (fold_left count_revealed votes JsObject.empty)
            None
            (match summary with
             | Some s => Summary.mostCommon s
             | None => None
             end)
            (Some revealed)).
  split.
  - destruct a as [s c st]. destruct s, c.
    destruct revealed; run_methods; reflexivity.
  - cbn [VotingResults.estimates VotingResults.totalVotes
         VotingResults.averageEstimate VotingResults.revealed].
    rewrite fold_count_revealed. fold labels.
    rewrite CountingFacts.fold_count_recorded by reflexivity.
    split; [|split; [|split; [|split]]].
    + intros k Hk. apply CountingFacts.ordinary_label_proto in Hk.
      rewrite CountingFacts.get_fold_count.
      cbn [JsObject.keys map mem existsb orb JsObject.empty JsObject.get
           or_zero].
      now rewrite CountingFacts.recorded_mem,
        CountingFacts.recorded_occurrences.
    + intros Hord.
      rewrite (CountingFacts.recorded_ordinary _ Hord).
      rewrite CountingFacts.sum_values_fold_count. subst labels.
      clear Hord.
      unfold labels_of, revealed_voters. simpl. f_equal.
      induction votes as [|u votes IH]; simpl; [reflexivity|].
      destruct (User.hasVoted u && truthy (User.estimate u)) eqn:Hv;
        [|exact IH].
      simpl. destruct (User.estimate u); simpl.
      * now rewrite IH.
      * rewrite andb_false_r in Hv. discriminate.
    + apply votingUsers_revealed_voters.
    + now destruct summary.
    + split; reflexivity.
Qed.

Lemma X15_revealed_distribution_witness :
  let votes := [admin_voter "zed" (ENumber 5); voter "ann" (ENumber 5);
                voter "bob" (EString "info"); idle "cyd"] in
  ordinary_label "5" = true
  /\ ordinary_labels (labels_of (revealed_voters votes)) = true
  /\ exists results,
       RoomService.votingResults
         (App.service
            (exec (handle (math := rationalMath)
                     (Votes_revealed true votes None))
                  (App_initial "room")))
       = Some results
       /\ JsObject.get (VotingResults.estimates results) "5" = Some 2
       /\ JsObject.sum_values (VotingResults.estimates results) = 3.
Proof.
  intros votes.
  assert (Hord : ordinary_labels (labels_of (revealed_voters votes)) = true)
    by reflexivity.
  split; [reflexivity|]. split; [exact Hord|].
  destruct (X15_revealed_distribution (math := rationalMath)
              (App_initial "room") true votes None)
    as (results & Hr & Hget & Hsum & _).
  exists results. split; [exact Hr|]. split.
  - exact (Hget "5" eq_refl).
  - exact (Hsum Hord).
Defined.

(** X16. [resetAndStartEstimation] in a session with a current user: it
    sends [reset-voting] at once, puts the selected card back and sets a
    timer of 200 ms; when the timer fires after the [voting-reset] of the
    backend it sends [start-estimation]; and once the [estimation-started]
    of the backend has arrived, estimation is in progress, the results are
    not revealed, no card is selected and the participant list is the one
    of the last event. *)
Theorem X16_reset_then_start {math : MathLib}
    (a : App.t) (u : User.t)
    (users1 users2 : list User.t) (results1 results2 : option VotingResults.t) :
  let c := App.component a in
  let ids := [("roomId", RoomComponent.roomId c); ("userId", User.id u)] in
  let a1 := exec (handle (Voting_reset users1 results1))
                 (App.set_component a (fst (resetAndStartEstimation c))) in
  let a2 := exec (handle (Estimation_started users2 results2)) a1 in
  RoomComponent.currentUser c = Some u ->
  snd (resetAndStartEstimation c) = [Emit "reset-voting" ids; SetTimeout 200]
  /\ resetAndStartEstimation_timeout (App.component a1)
     = [Emit "start-estimation" ids]
  /\ RoomService.estimationStarted (App.service a2) = true
  /\ RoomService.resultsRevealed (App.service a2) = false
  /\ RoomComponent.estimationStarted (App.component a2) = true
  /\ RoomComponent.resultsRevealed (App.component a2) = false
  /\ RoomComponent.selectedEstimate (App.component a2) = None
  /\ RoomComponent.users (App.component a2) = users2.
Proof.
  intros c ids a1 a2 Hu. subst a2 a1 ids c.
  destruct a as [s c st]. destruct s, c. cbn [App.component] in *.
  unfold resetAndStartEstimation, resetAndStartEstimation_timeout.
  cbn in Hu. subst. run_methods; repeat split.
Qed.

Lemma X16_reset_then_start_witness :
  let a := app_of (voting_component (Some (ENumber 8))) in
  let a2 :=
    exec (handle (math := rationalMath)
            (Estimation_started [idle "ann"] None))
         (exec (handle (math := rationalMath) (Voting_reset [idle "ann"] None))
               (App.set_component a
                  (fst (resetAndStartEstimation (App.component a))))) in
  RoomComponent.currentUser (App.component a)
  = Some (User.mk "u1" "ann" (Some (ENumber 8)) true (Some false) None)
  /\ RoomComponent.estimationStarted (App.component a2) = true
  /\ RoomComponent.selectedEstimate (App.component a2) = None.
Proof.
  intros a a2.
  destruct (X16_reset_then_start (math := rationalMath) a
              (User.mk "u1" "ann" (Some (ENumber 8)) true (Some false) None)
              [idle "ann"] [idle "ann"] None None eq_refl)
    as (_ & _ & _ & _ & Hs & _ & Hsel & _).
  split; [reflexivity|]. split; [exact Hs | exact Hsel].
Defined.

Section ProgressFacts.

Lemma filter_length_le {A : Type} (f : A -> bool) (l : list A) :
  (length (filter f l) <= length l)%nat.
Proof.
  induction l as [|x l IH]; simpl; [lia|].
  destruct (f x); simpl; lia.
Qed.

Lemma votingUsers_votedUsers (users : list User.t) :
  (length (votingUsers users) <= length (votedUsers users))%nat.
Proof.
  unfold votingUsers, votedUsers, nonAdminUsers, is_voting_user.
  induction users as [|u users IH]; simpl; [lia|].
  destruct (truthy_flag (User.isAdmin u)); simpl; [exact IH|].
  destruct (User.hasVoted u); simpl; [|exact IH].
  destruct (truthy (User.estimate u)); simpl; lia.
Qed.

Lemma existsb_filter_length {A : Type} (f : A -> bool) (l : list A) :
  existsb f l = true <-> (0 < length (filter f l))%nat.
Proof.
  induction l as [|x l IH]; simpl.
  - split; [discriminate | lia].
  - destruct (f x); simpl; [split; [lia | reflexivity] | exact IH].
Qed.

End ProgressFacts.

(** X17. The getter [allUsersVoted] holds as soon as one participant who
    is not an admin has voted, not only when all have; the two numbers of
    [votingProgress] are the count of those who are not admins and have
    voted and the count of those who are not admins, the first at most the
    second; the votes counted in the chart are at most the first number
    (a vote with an empty estimate counts in the progress, not in the
    chart), so while [allUsersVoted] is false the chart has no wedge. *)
Theorem X17_progress_and_chart {math : MathLib} (c : RoomComponent.t) :
  let users := RoomComponent.users c in
  (allUsersVoted c = true <->
   exists u, In u users /\ truthy_flag (User.isAdmin u) = false
             /\ User.hasVoted u = true)
  /\ (allUsersVoted c = true <-> (0 < length (votedUsers users))%nat)
  /\ votingProgress c
     = length_toString (length (votedUsers users)) ++ "/"
       ++ length_toString (length (nonAdminUsers users))
  /\ (length (votingUsers users) <= length (votedUsers users))%nat
  /\ (length (votedUsers users) <= length (nonAdminUsers users))%nat
  /\ (allUsersVoted c = false -> generated_segments c = []).
Proof.
  intros users. subst users.
  assert (Hlen : allUsersVoted c = true <->
                 (0 < length (votedUsers (RoomComponent.users c)))%nat)
    by apply existsb_filter_length.
  split; [|split; [exact Hlen|split; [reflexivity|split; [|split]]]].
  - unfold allUsersVoted, nonAdminUsers. rewrite existsb_exists. split.
    + intros (u & Hin & Hv). apply filter_In in Hin as [Hin Ha].
      apply negb_true_iff in Ha. eauto.
    + intros (u & Hin & Ha & Hv). exists u. split; [|exact Hv].
      apply filter_In. split; [exact Hin | now rewrite Ha].
  - apply votingUsers_votedUsers.
  - apply filter_length_le.
  - intros Hnone. apply generated_nil_voting.
    pose proof (votingUsers_votedUsers (RoomComponent.users c)) as Hle.
    destruct (length (votedUsers (RoomComponent.users c))) eqn:Hv.
    + destruct (votingUsers (RoomComponent.users c));
        [reflexivity | simpl in Hle; lia].
    + assert (allUsersVoted c = true) by (apply Hlen; lia). congruence.
Qed.

Lemma X17_progress_and_chart_witness :
  let c := revealed_component
             [admin_voter "zed" (ENumber 3); idle "ann"; idle "bob"] in
  allUsersVoted c = false
  /\ votingProgress c = "0/2"
  /\ generated_segments (math := rationalMath) c = [].
Proof.
  intros c.
  assert (H : allUsersVoted c = false) by reflexivity.
  split; [exact H|]. split; [reflexivity|].
  destruct (X17_progress_and_chart (math := rationalMath) c)
    as (_ & _ & _ & _ & _ & Hempty).
  exact (Hempty H).
Defined.



(** X19. Saving the story and hearing it back: [saveStory] sends
    [update-story] with the draft as title and an empty description, closes
    the editor and keeps the draft; when the backend then announces that
    story with [story-updated] and the service holds a room, the story of
    that room becomes the one sent and the draft on display is still the
    text that was saved.  Without a current user [saveStory] sends nothing
    and closes the editor all the same. *)
Theorem X19_saved_story_comes_back {math : MathLib}
    (a : App.t) (u : User.t) (r r' : Room.t) (draft : string) :
  let c := RoomComponent.set_storySummary
             (fst (editStory (App.component a))) draft in
  let saved := saveStory c in
  let a' := exec (handle (Story_updated (Story.mk draft "") r'))
                 (App.set_component a (fst saved)) in
  RoomComponent.currentUser (App.component a) = Some u ->
  RoomService.room (App.service a) = Some r ->
  snd saved
  = [Emit "update-story"
       [("roomId", RoomComponent.roomId (App.component a));
        ("userId", User.id u); ("title", draft); ("description", "")]]
  /\ RoomComponent.isEditingStory (fst saved) = false
  /\ RoomComponent.storySummary (fst saved) = draft
  /\ RoomService.room (App.service a')
     = Some (Room.with_story r (Story.mk draft ""))
  /\ RoomComponent.storySummary (App.component a') = draft
  /\ RoomComponent.isEditingStory (App.component a') = false
  /\ snd (saveStory (RoomComponent.set_currentUser c None)) = [].
Proof.
  intros c saved a' Hu Hr. subst a' saved c.
  destruct a as [s c st]. destruct s, c. cbn in Hu, Hr. subst.
  unfold saveStory, editStory.
  unfold_methods. cbn -[generated_segments or_string].
  assert (Hd : or_string (or_string draft "") "" = draft).
  { unfold or_string. destruct (draft =? "")%string eqn:Hx.
    - apply String.eqb_eq in Hx. now subst.
    - now rewrite Hx. }
  rewrite Hd. repeat split.
Qed.

Lemma X19_saved_story_comes_back_witness :
  let r := Room.mk "room" "Sprint 12" 1 "ann" (Story.mk "Old" "")
             false false "t0" "t1" in
  let a := App.mk (RoomService.set_room RoomService.initial (Some r))
                  (voting_component None) [] in
  RoomComponent.currentUser (App.component a)
  = Some (User.mk "u1" "ann" None false (Some false) None)
  /\ RoomService.room (App.service a) = Some r
  /\ RoomComponent.storySummary
       (App.component
          (exec (handle (math := rationalMath)
                   (Story_updated (Story.mk "Login page" "") r))
                (App.set_component a
                   (fst (saveStory
                           (RoomComponent.set_storySummary
                              (fst (editStory (App.component a)))
                              "Login page"))))))
     = "Login page".
Proof.
  intros r a. split; [reflexivity|]. split; [reflexivity|].
  destruct (X19_saved_story_comes_back (math := rationalMath) a
              (User.mk "u1" "ann" None false (Some false) None)
              r r "Login page" eq_refl eq_refl)
    as (_ & _ & _ & _ & Hdraft & _).
  exact Hdraft.
Defined.

(** X20. The paths of the wedges, when no counted label is the name of a
    member of [Object.prototype]: a wedge whose percentage is at least 99.9
    carries the full-circle path, whose end point is not its start point;
    every other wedge carries a wedge path whose large-arc flag is 1 when
    its percentage exceeds 50 and 0 otherwise.  When all counted votes bear
    one label, there is exactly one wedge, of 100 percent, with the
    full-circle path. *)
Theorem X20_wedge_paths {math : MathLib} (c : RoomComponent.t) :
  ordinary_labels (counted_estimates (RoomComponent.users c)) = true ->
  (forall seg, In seg (generated_segments c) ->
     ((999 # 10 <= ChartSegment.percentage seg)%Q ->
      ChartSegment.pathData seg = Some (full_circle_path c))
     /\ ((ChartSegment.percentage seg < 999 # 10)%Q ->
         exists x1 y1 largeArc x2 y2,
           ChartSegment.pathData seg
           = Some (wedge_path c x1 y1 largeArc x2 y2)
           /\ ((50 < ChartSegment.percentage seg)%Q -> largeArc = 1%Q)
           /\ ((ChartSegment.percentage seg <= 50)%Q -> largeArc = 0%Q)))
  /\ ~ (RoomComponent.chartCenterX c
        == RoomComponent.chartCenterX c - (1 # 10))%Q
  /\ (forall k,
        counted_estimates (RoomComponent.users c) <> [] ->
        (forall k', In k' (counted_estimates (RoomComponent.users c)) ->
                    k' = k) ->
        exists seg,
          generated_segments c = [seg]
          /\ ChartSegment.label seg = getEstimateLabel k
          /\ (ChartSegment.percentage seg == 100)%Q
          /\ ChartSegment.pathData seg = Some (full_circle_path c)).
Proof.
  intros Hord. split; [|split].
  - intros seg Hin. unfold generated_segments in Hin.
    apply map_entries_In in Hin as (i & cum & k & n & _ & ->). split.
    + apply chart_segment_full.
    + intros Hlt. rewrite chart_segment_wedge by assumption.
      unfold getSegmentPath, wedge_path.
      do 5 eexists. split; [reflexivity|].
      split; intros Hp.
      * apply Qgt_bool_true in Hp. now rewrite Hp.
      * apply Qgt_bool_false in Hp. now rewrite Hp.
  - intros Heq.
    assert (H : (RoomComponent.chartCenterX c + 0
                 == RoomComponent.chartCenterX c + - (1 # 10))%Q)
      by (rewrite Qplus_0_r; exact Heq).
    apply Qplus_inj_l in H. discriminate H.
  - intros k Hne Hall.
    assert (Hk : k <> "__proto__").
    { apply CountingFacts.ordinary_label_proto.
      apply (CountingFacts.ordinary_labels_In _ _ Hord).
      destruct (counted_estimates (RoomComponent.users c)) as [|k0 l] eqn:Hl;
        [contradiction|].
      rewrite <- (Hall k0 (or_introl eq_refl)). now left. }
    destruct (generated_single c k Hk Hne Hall) as [Hpos Hgen].
    eexists. split; [exact Hgen|].
    assert (Hp : (ChartSegment.percentage
                    (chart_segment c
                       (Z.of_nat
                          (length (counted_estimates (RoomComponent.users c))))
                       0 0 k
                       (Z.of_nat
                          (length (counted_estimates (RoomComponent.users c)))))
                  == 100)%Q).
    { unfold chart_segment. cbn [ChartSegment.percentage]. field.
      intros H. unfold Qeq in H. cbn [Qnum Qden inject_Z] in H. lia. }
    split; [reflexivity|]. split; [exact Hp|].
    apply chart_segment_full. rewrite Hp. unfold Qle. simpl. lia.
Qed.

Lemma X20_wedge_paths_witness :
  ordinary_labels
    (counted_estimates
       (RoomComponent.users (revealed_component users_5_5_8))) = true
  /\ In (segment_5_of_5_5_8 (math := rationalMath))
        (generated_segments (math := rationalMath)
           (revealed_component users_5_5_8))
  /\ (ChartSegment.percentage (segment_5_of_5_5_8 (math := rationalMath))
      < 999 # 10)%Q
  /\ exists x1 y1 largeArc x2 y2,
       ChartSegment.pathData (segment_5_of_5_5_8 (math := rationalMath))
       = Some (wedge_path (revealed_component users_5_5_8)
                          x1 y1 largeArc x2 y2)
       /\ largeArc = 1%Q.
Proof.
  assert (Hord : ordinary_labels
                   (counted_estimates
                      (RoomComponent.users (revealed_component users_5_5_8)))
                 = true) by reflexivity.
  assert (Hin : In (segment_5_of_5_5_8 (math := rationalMath))
                   (generated_segments (math := rationalMath)
                      (revealed_component users_5_5_8)))
    by (left; reflexivity).
  assert (Hlt : (ChartSegment.percentage
                   (segment_5_of_5_5_8 (math := rationalMath)) < 999 # 10)%Q)
    by reflexivity.
  split; [exact Hord|]. split; [exact Hin|]. split; [exact Hlt|].
  destruct (proj2 (proj1 (X20_wedge_paths (math := rationalMath)
                            (revealed_component users_5_5_8) Hord) _ Hin) Hlt)
    as (x1 & y1 & f & x2 & y2 & Hpath & Hbig & _).
  exists x1, y1, f, x2, y2. split; [exact Hpath|].
  apply Hbig. reflexivity.
Defined.
